(** * ESP8266 Gaming Time Clock: play-time accounting and persistence

    A shallow embedding of the accounting core of
    [ESP8266_GamingTimeClock.ino]: the ten minute counters, the JSON data
    file on LittleFS ([fs_create_data_file], [fs_save_data_file],
    [fs_load_data_file], [fs_reset_data_file]), the periodic handler
    [time_handle] and the Denon AVR callbacks ([denon_powerChanged],
    [denon_inputChanged]).

    Conventions.
    - The C globals are gathered in the record [Globals]; every function of
      the sketch becomes a function from [Globals] to [Globals].
    - [uint32_t] values are integers of [Z] reduced with [u32]; [millis()]
      is an explicit argument [now].
    - Serial logging and drawing on the TFT do not influence the counters
      nor the data file and are left out. *)

From Stdlib Require Import ZArith Lia Bool List Ascii String.
From stdpp Require Import gmap strings.

Local Open Scope Z_scope.

(** ** Machine integers *)

(** Reduction to the range of [uint32_t]. *)
Definition u32 (z : Z) : Z := z mod 2 ^ 32.

Definition INT32_MIN : Z := - 2 ^ 31.
Definition INT32_MAX : Z := 2 ^ 31 - 1.

(** ** User parameters and defines of the sketch *)

Definition CLOCK_ENDSESSION_HOUR : Z := 6.
Definition CLOCK_STARTWEEK_DAY : Z := 1.

Definition TIME_PS5_TODAY : string := "ps_t".
Definition TIME_PS5_WEEK : string := "ps_w".
Definition TIME_PS5_MONTH : string := "ps_m".
Definition TIME_PS5_YEAR : string := "ps_y".
Definition TIME_PS5_SUM : string := "ps_s".
Definition TIME_SWITCH_TODAY : string := "sw_t".
Definition TIME_SWITCH_WEEK : string := "sw_w".
Definition TIME_SWITCH_MONTH : string := "sw_m".
Definition TIME_SWITCH_YEAR : string := "sw_y".
Definition TIME_SWITCH_SUM : string := "sw_s".

Definition SM_SCREEN_OFF : Z := 0.
Definition SM_SCREEN_IDLE : Z := 1.
Definition SM_SCREEN_INFO : Z := 2.
Definition SM_SCREEN_STATS_ALL : Z := 3.
Definition SM_SCREEN_PLAY_PS5 : Z := 10.
Definition SM_SCREEN_STATS_PS5 : Z := 11.
Definition SM_SCREEN_PLAY_SWITCH : Z := 20.
Definition SM_SCREEN_STATS_SWITCH : Z := 21.

(** ** The JSON data file *)

(** What [deserializeJson] makes of the bytes of a file.  ArduinoJson is an
    external library; the bytes are kept up to their meaning: either they
    parse to a flat object from keys to integers, or the parser reports an
    error.  The capacity [JSON_BUFFER_SIZE] of the [StaticJsonDocument] is
    not part of this model: whether a well-formed record is too large for
    it, which the parser reports as an error as well, depends on the
    library and is not decided here. *)
Inductive FileContent :=
  | Parsed (data : gmap string Z)
  | Unparsable (raw : string).

(** The LittleFS partition once mounted ([fs_init] does not return before):
    the content of [FS_DATA_FILE] when the file exists, and whether the flash
    accepts writes. *)
Record LittleFS := mkFS {
  data_json : option FileContent;
  writable : bool
}.

(** [DeserializationError] is kept as [None]. *)
Definition deserializeJson (c : FileContent) : option (gmap string Z) :=
  match c with
  | Parsed data => Some data
  | Unparsable _ => None
  end.

(** [LittleFS.open(FS_DATA_FILE, "r")] and [".. r+"]: a null [File] when the
    file does not exist. *)
Definition LittleFS_open_existing (fs : LittleFS) : option FileContent :=
  data_json fs.

(** [LittleFS.open(FS_DATA_FILE, "w")]: creates the file or truncates it to
    the empty file (on which the parser reports [EmptyInput]). *)
Definition LittleFS_open_w (fs : LittleFS) : option LittleFS :=
  if writable fs
  then Some (mkFS (Some (Unparsable "")) true)
  else None.

(** [file.print("{}")] on the file opened by [LittleFS_open_w]: the number
    of bytes written and the partition after it. *)
Definition File_print_braces (fs : LittleFS) : Z * LittleFS :=
  if writable fs
  then (2, mkFS (Some (Parsed ∅)) (writable fs))
  else (0, fs).

(** [jsonFile.seek(0); jsonFile.truncate(..); serializeJson(data, jsonFile)]:
    the number of bytes written (positive on success) and the partition. *)
Definition File_rewrite (data : gmap string Z) (fs : LittleFS) : Z * LittleFS :=
  if writable fs
  then (1, mkFS (Some (Parsed data)) (writable fs))
  else (0, fs).

(** [(int32_t)data[key]]: ArduinoJson converts an integer that fits the
    requested type and yields 0 for one that does not. *)
Definition as_int32 (v : Z) : Z :=
  if (INT32_MIN <=? v) && (v <=? INT32_MAX) then v else 0.

(** ** Global variables *)

Record Counters := mkCounters {
  time_ps5_today_mins : Z;
  time_ps5_week_mins : Z;
  time_ps5_month_mins : Z;
  time_ps5_year_mins : Z;
  time_ps5_sum_mins : Z;
  time_switch_today_mins : Z;
  time_switch_week_mins : Z;
  time_switch_month_mins : Z;
  time_switch_year_mins : Z;
  time_switch_sum_mins : Z
}.

Record Clock := mkClock {
  t_hour : Z;
  t_minute : Z;
  t_day : Z;
  t_month : Z;
  t_year : Z;
  t_weekday : Z
}.

Record Globals := mkGlobals {
  mins : Counters;
  clock : Clock;
  everyMinute_tick : Z;
  sm_screen : Z;
  sm_screen_forceRefresh : bool;
  (** the LittleFS partition *)
  flash : LittleFS;
  (** commands handed to [DenonAvr.set], oldest first *)
  avr_sent : list (string * string)
}.

Definition with_mins (m : Counters) (st : Globals) : Globals :=
  mkGlobals m (clock st) (everyMinute_tick st) (sm_screen st)
            (sm_screen_forceRefresh st) (flash st) (avr_sent st).

Definition with_tick (t : Z) (st : Globals) : Globals :=
  mkGlobals (mins st) (clock st) t (sm_screen st)
            (sm_screen_forceRefresh st) (flash st) (avr_sent st).

Definition with_screen (s : Z) (refresh : bool) (st : Globals) : Globals :=
  mkGlobals (mins st) (clock st) (everyMinute_tick st) s refresh
            (flash st) (avr_sent st).

Definition with_flash (fs : LittleFS) (st : Globals) : Globals :=
  mkGlobals (mins st) (clock st) (everyMinute_tick st) (sm_screen st)
            (sm_screen_forceRefresh st) fs (avr_sent st).

Definition with_sent (cmd : string * string) (st : Globals) : Globals :=
  mkGlobals (mins st) (clock st) (everyMinute_tick st) (sm_screen st)
            (sm_screen_forceRefresh st) (flash st) (avr_sent st ++ [cmd]).

(** The initial values of the globals, over a given partition. *)
Definition zero_counters : Counters := mkCounters 0 0 0 0 0 0 0 0 0 0.

Definition boot (fs : LittleFS) : Globals :=
  mkGlobals zero_counters (mkClock 0 0 0 0 0 0) 0 SM_SCREEN_IDLE false fs [].

(** The ten counters by name, with their key in the data file. *)
Inductive Counter :=
  | Ps5Today | Ps5Week | Ps5Month | Ps5Year | Ps5Sum
  | SwitchToday | SwitchWeek | SwitchMonth | SwitchYear | SwitchSum.

Definition all_counters : list Counter :=
  [Ps5Today; Ps5Week; Ps5Month; Ps5Year; Ps5Sum;
   SwitchToday; SwitchWeek; SwitchMonth; SwitchYear; SwitchSum].

Definition key_of (c : Counter) : string :=
  match c with
  | Ps5Today => TIME_PS5_TODAY
  | Ps5Week => TIME_PS5_WEEK
  | Ps5Month => TIME_PS5_MONTH
  | Ps5Year => TIME_PS5_YEAR
  | Ps5Sum => TIME_PS5_SUM
  | SwitchToday => TIME_SWITCH_TODAY
  | SwitchWeek => TIME_SWITCH_WEEK
  | SwitchMonth => TIME_SWITCH_MONTH
  | SwitchYear => TIME_SWITCH_YEAR
  | SwitchSum => TIME_SWITCH_SUM
  end.

Definition counter (c : Counter) (m : Counters) : Z :=
  match c with
  | Ps5Today => time_ps5_today_mins m
  | Ps5Week => time_ps5_week_mins m
  | Ps5Month => time_ps5_month_mins m
  | Ps5Year => time_ps5_year_mins m
  | Ps5Sum => time_ps5_sum_mins m
  | SwitchToday => time_switch_today_mins m
  | SwitchWeek => time_switch_week_mins m
  | SwitchMonth => time_switch_month_mins m
  | SwitchYear => time_switch_year_mins m
  | SwitchSum => time_switch_sum_mins m
  end.

(** ** Filesystem functions *)

(** [bool fs_create_data_file()] *)
Definition fs_create_data_file (st : Globals) : Globals * bool :=
  match LittleFS_open_w (flash st) with
  | None => (st, false)
  | Some fs1 =>
      let '(written, fs2) := File_print_braces fs1 in
      if written =? 0
      then (with_flash fs2 st, false)
      else (with_flash fs2 st, true)
  end.

(** The assignments [data[KEY] = counter] of [fs_save_data_file]. *)
Definition update_data (m : Counters) (data : gmap string Z) : gmap string Z :=
  let data := <[TIME_PS5_TODAY := time_ps5_today_mins m]> data in
  let data := <[TIME_PS5_WEEK := time_ps5_week_mins m]> data in
  let data := <[TIME_PS5_MONTH := time_ps5_month_mins m]> data in
  let data := <[TIME_PS5_YEAR := time_ps5_year_mins m]> data in
  let data := <[TIME_PS5_SUM := time_ps5_sum_mins m]> data in
  let data := <[TIME_SWITCH_TODAY := time_switch_today_mins m]> data in
  let data := <[TIME_SWITCH_WEEK := time_switch_week_mins m]> data in
  let data := <[TIME_SWITCH_MONTH := time_switch_month_mins m]> data in
  let data := <[TIME_SWITCH_YEAR := time_switch_year_mins m]> data in
  let data := <[TIME_SWITCH_SUM := time_switch_sum_mins m]> data in
  data.

(** [fs_save_data_file] from the point where [jsonFile] is open on the
    content [jsonContent]. *)
Definition save_opened (jsonContent : FileContent) (st : Globals) : Globals :=
  match deserializeJson jsonContent with
  | None => st
  | Some data =>
      let data := update_data (mins st) data in
      with_flash (snd (File_rewrite data (flash st))) st
  end.

(** [void fs_save_data_file()] *)
Definition fs_save_data_file (st : Globals) : Globals :=
  match LittleFS_open_existing (flash st) with
  | Some jsonContent => save_opened jsonContent st
  | None =>
      let '(st1, created) := fs_create_data_file st in
      if negb created then st1
      else
        match LittleFS_open_existing (flash st1) with
        | None => st1
        | Some jsonContent => save_opened jsonContent st1
        end
  end.

(** One line [if (data.containsKey(KEY)) counter = (int32_t)data[KEY];]. *)
Definition read_key (data : gmap string Z) (key : string) (old : Z) : Z :=
  match data !! key with
  | Some v => u32 (as_int32 v)
  | None => old
  end.

(** [fs_load_data_file] from the point where [jsonContent] has been read. *)
Definition load_content (jsonContent : FileContent) (st : Globals) : Globals :=
  match deserializeJson jsonContent with
  | None => st
  | Some data =>
      let m := mins st in
      with_mins
        (mkCounters
           (read_key data TIME_PS5_TODAY (time_ps5_today_mins m))
           (read_key data TIME_PS5_WEEK (time_ps5_week_mins m))
           (read_key data TIME_PS5_MONTH (time_ps5_month_mins m))
           (read_key data TIME_PS5_YEAR (time_ps5_year_mins m))
           (read_key data TIME_PS5_SUM (time_ps5_sum_mins m))
           (read_key data TIME_SWITCH_TODAY (time_switch_today_mins m))
           (read_key data TIME_SWITCH_WEEK (time_switch_week_mins m))
           (read_key data TIME_SWITCH_MONTH (time_switch_month_mins m))
           (read_key data TIME_SWITCH_YEAR (time_switch_year_mins m))
           (read_key data TIME_SWITCH_SUM (time_switch_sum_mins m)))
        st
  end.

(** [int32_t fs_load_data_file()]: the globals after the call and the value
    returned ([duration], which is never assigned). *)
Definition fs_load_data_file (st : Globals) : Globals * Z :=
  let duration := 0 in
  match LittleFS_open_existing (flash st) with
  | Some jsonContent => (load_content jsonContent st, duration)
  | None =>
      let '(st1, created) := fs_create_data_file st in
      if negb created then (st1, duration)
      else
        match LittleFS_open_existing (flash st1) with
        | None => (st1, duration)
        | Some jsonContent => (load_content jsonContent st1, duration)
        end
  end.

(** [void fs_reset_data_file()] *)
Definition fs_reset_data_file (st : Globals) : Globals :=
  fs_save_data_file (with_mins zero_counters st).

(** ** Time and duration functions *)

(** [void time_init()]; [everySecond_tick] only paces the display. *)
Definition time_init (now : Z) (st : Globals) : Globals :=
  fst (fs_load_data_file (with_tick (u32 (now + 60000)) st)).

(** The [switch(sm_screen)] of [time_handle]: one more minute of play time
    for the console whose play screen is shown. *)
Definition count_minute (st : Globals) (doSave : bool) : Globals * bool :=
  let m := mins st in
  if sm_screen st =? SM_SCREEN_PLAY_PS5 then
    (with_mins
       (mkCounters
          (u32 (time_ps5_today_mins m + 1))
          (u32 (time_ps5_week_mins m + 1))
          (u32 (time_ps5_month_mins m + 1))
          (u32 (time_ps5_year_mins m + 1))
          (u32 (time_ps5_sum_mins m + 1))
          (time_switch_today_mins m) (time_switch_week_mins m)
          (time_switch_month_mins m) (time_switch_year_mins m)
          (time_switch_sum_mins m)) st, true)
  else if sm_screen st =? SM_SCREEN_PLAY_SWITCH then
    (with_mins
       (mkCounters
          (time_ps5_today_mins m) (time_ps5_week_mins m)
          (time_ps5_month_mins m) (time_ps5_year_mins m)
          (time_ps5_sum_mins m)
          (u32 (time_switch_today_mins m + 1))
          (u32 (time_switch_week_mins m + 1))
          (u32 (time_switch_month_mins m + 1))
          (u32 (time_switch_year_mins m + 1))
          (u32 (time_switch_sum_mins m + 1))) st, true)
  else (st, doSave).

(** The body of [if (everyMinute_tick < millis())]: a firing of the minute
    tick. *)
Definition minute_fired (now : Z) (st : Globals) (doSave : bool)
  : Globals * bool :=
  count_minute (with_tick (u32 (now + 60000)) st) doSave.

(** First block of [time_handle]. *)
Definition minute_tick (now : Z) (st : Globals) (doSave : bool)
  : Globals * bool :=
  if everyMinute_tick st <? now then minute_fired now st doSave
  else (st, doSave).

(** The test [t_hour == CLOCK_ENDSESSION_HOUR && t_minute == 0]. *)
Definition session_ends (c : Clock) : bool :=
  (t_hour c =? CLOCK_ENDSESSION_HOUR) && (t_minute c =? 0).

(** The resets guarded by that test. *)
Definition reset_periods (c : Clock) (m : Counters) : Counters :=
  let m :=
    mkCounters 0 (time_ps5_week_mins m) (time_ps5_month_mins m)
               (time_ps5_year_mins m) (time_ps5_sum_mins m)
               0 (time_switch_week_mins m) (time_switch_month_mins m)
               (time_switch_year_mins m) (time_switch_sum_mins m) in
  let m :=
    if t_weekday c =? CLOCK_STARTWEEK_DAY then
      mkCounters (time_ps5_today_mins m) 0 (time_ps5_month_mins m)
                 (time_ps5_year_mins m) (time_ps5_sum_mins m)
                 (time_switch_today_mins m) 0 (time_switch_month_mins m)
                 (time_switch_year_mins m) (time_switch_sum_mins m)
    else m in
  if t_day c =? 1 then
    let m :=
      mkCounters (time_ps5_today_mins m) (time_ps5_week_mins m) 0
                 (time_ps5_year_mins m) (time_ps5_sum_mins m)
                 (time_switch_today_mins m) (time_switch_week_mins m) 0
                 (time_switch_year_mins m) (time_switch_sum_mins m) in
    if t_month c =? 0 then
      mkCounters (time_ps5_today_mins m) (time_ps5_week_mins m)
                 (time_ps5_month_mins m) 0 (time_ps5_sum_mins m)
                 (time_switch_today_mins m) (time_switch_week_mins m)
                 (time_switch_month_mins m) 0 (time_switch_sum_mins m)
    else m
  else m.

(** Second block of [time_handle]: the end of the current session. *)
Definition day_rollover (st : Globals) (doSave : bool) : Globals * bool :=
  if session_ends (clock st)
  then (with_mins (reset_periods (clock st) (mins st)) st, true)
  else (st, doSave).

(** [void time_handle()], with the reading [now] of [millis()]. *)
Definition time_handle (now : Z) (st : Globals) : Globals :=
  let doSave := false in
  let '(st, doSave) := minute_tick now st doSave in
  let '(st, doSave) := day_rollover st doSave in
  if doSave then fs_save_data_file st else st.

(** ** The date shown on the idle screen *)

Definition digit_char (d : Z) : ascii :=
  ascii_of_nat (48 + Z.to_nat d).

(** Decimal digits of a non-negative number below [10 ^ digits], as the
    Arduino [String] appends an integer. *)
Fixpoint decimal (digits : nat) (n : Z) : string :=
  match digits with
  | O => ""
  | S k =>
      (if n <? 10 then "" else decimal k (n / 10))
        +:+ String (digit_char (n mod 10)) ""
  end.

(** [String clock_getDateString()] *)
Definition clock_getDateString (c : Clock) : string :=
  let d_str := "" in
  let d_str := if t_day c <? 10 then d_str +:+ "0" else d_str in
  let d_str := d_str +:+ decimal 3 (t_day c) in
  let d_str := d_str +:+ "." in
  let d_str := if t_month c <? 10 then d_str +:+ "0" else d_str in
  let d_str := d_str +:+ decimal 3 (t_month c) in
  let d_str := d_str +:+ "." in
  d_str +:+ decimal 5 (t_year c).

(** ** Denon AVR callbacks *)

(** [strncmp(s1, s2, n) == 0]: the strings agree on their first [n]
    characters, or up to their common end when that comes before. *)
Fixpoint strncmp_is_0 (s1 s2 : string) (n : Z) : bool :=
  if n <=? 0 then true
  else
    match s1, s2 with
    | EmptyString, EmptyString => true
    | String c1 r1, String c2 r2 =>
        if Ascii.eqb c1 c2 then strncmp_is_0 r1 r2 (n - 1) else false
    | _, _ => false
    end.

(** The input whose play time is being counted, as [time_handle] reads it
    off [sm_screen]. *)
Inductive ActiveInput := NoInput | PS5 | Switch.

Definition active_input (st : Globals) : ActiveInput :=
  if sm_screen st =? SM_SCREEN_PLAY_PS5 then PS5
  else if sm_screen st =? SM_SCREEN_PLAY_SWITCH then Switch
  else NoInput.

Section Denon.

(** Protocol strings defined in [DenonCommands.h] of the Denon library;
    the sketch fixes [AVR_INPUT_PS5] and [AVR_INPUT_SWITCH] in terms of
    them. *)
Variables ON OFF INPUT_SOURCE BLURAY_DISC GAME : string.

Definition AVR_INPUT_PS5 : string := BLURAY_DISC.
Definition AVR_INPUT_SWITCH : string := GAME.

(** [void denon_powerChanged(const char *response, size_t len)] *)
Definition denon_powerChanged (response : string) (len : Z) (st : Globals)
  : Globals :=
  if strncmp_is_0 response ON (u32 (len - 1)) then
    let st := fst (fs_load_data_file st) in
    with_sent (INPUT_SOURCE, "?") st
  else if strncmp_is_0 response OFF (u32 (len - 1)) then
    let st := fs_save_data_file st in
    if sm_screen st =? SM_SCREEN_PLAY_PS5 then
      with_screen SM_SCREEN_STATS_PS5 true st
    else if sm_screen st =? SM_SCREEN_PLAY_SWITCH then
      with_screen SM_SCREEN_STATS_SWITCH true st
    else with_screen SM_SCREEN_IDLE true st
  else st.

(** [void denon_inputChanged(const char *response, size_t len)] *)
Definition denon_inputChanged (response : string) (len : Z) (st : Globals)
  : Globals :=
  let st := fs_save_data_file st in
  if strncmp_is_0 response AVR_INPUT_PS5 (u32 (len - 1)) then
    with_screen SM_SCREEN_PLAY_PS5 true st
  else if strncmp_is_0 response AVR_INPUT_SWITCH (u32 (len - 1)) then
    with_screen SM_SCREEN_PLAY_SWITCH true st
  else with_screen SM_SCREEN_IDLE true st.

End Denon.

(** ** Durations and the time as text *)

Fixpoint zeros (n : nat) : string :=
  match n with
  | O => ""
  | S k => String "0"%char (zeros k)
  end.

(** The conversion [%0<width>lu] of [snprintf]. *)
Definition fmt_lu (width : nat) (n : Z) : string :=
  let text := decimal 10 n in
  zeros (width - String.length text) +:+ text.

(** [String clock_getTimeString()] *)
Definition clock_getTimeString (c : Clock) : string :=
  let t_str := "" in
  let t_str := if t_hour c <? 10 then t_str +:+ "0" else t_str in
  let t_str := t_str +:+ decimal 3 (t_hour c) in
  let t_str := t_str +:+ ":" in
  let t_str := if t_minute c <? 10 then t_str +:+ "0" else t_str in
  t_str +:+ decimal 3 (t_minute c).

(** [String minutes_to_str(uint32_t minutes)]: [snprintf] keeps at most
    [sizeof(formattedTime) - 1] characters of the formatted text. *)
Definition minutes_to_str (minutes : Z) : string :=
  let hours := minutes / 60 in
  let minutes := minutes mod 60 in
  let formatted (width : nat) :=
    substring 0 (7 - 1) (fmt_lu width hours +:+ ":" +:+ fmt_lu 2 minutes) in
  if hours <? 10 then formatted 1%nat
  else if hours <? 100 then formatted 2%nat
  else formatted 3%nat.

(** ** Display and touch screen *)

(** The globals of the sketch: those of the accounting, and those of the
    display and of the touch screen. *)
Record Sketch := mkSketch {
  globals : Globals;
  everySecond_tick : Z;
  t_minute_last : Z;
  sm_nextScreen : Z;
  (** [int8_t] *)
  sm_timeToNextScreen : Z;
  tft_touchIRQ : bool
}.

Definition with_globals (g : Globals) (s : Sketch) : Sketch :=
  mkSketch g (everySecond_tick s) (t_minute_last s) (sm_nextScreen s)
           (sm_timeToNextScreen s) (tft_touchIRQ s).

Definition with_next (next timeToNext : Z) (s : Sketch) : Sketch :=
  mkSketch (globals s) (everySecond_tick s) (t_minute_last s) next timeToNext
           (tft_touchIRQ s).

(** [void tft_handle_nextScreen()] *)
Definition tft_handle_nextScreen (s : Sketch) : Sketch :=
  if 0 <? sm_timeToNextScreen s then
    with_next (sm_nextScreen s) (sm_timeToNextScreen s - 1) s
  else if sm_timeToNextScreen s =? 0 then
    with_globals (with_screen (sm_nextScreen s) true (globals s))
                 (with_next (sm_nextScreen s) (-1) s)
  else s.

(** The [switch(sm_screen)] of [tft_handle]: the statistics screens arm the
    return to the idle screen; what is drawn is left out. *)
Definition draw_screen (s : Sketch) : Sketch :=
  let screen := sm_screen (globals s) in
  if (screen =? SM_SCREEN_STATS_ALL) || (screen =? SM_SCREEN_STATS_PS5)
     || (screen =? SM_SCREEN_STATS_SWITCH)
  then with_next SM_SCREEN_IDLE 5 s
  else s.

(** [void tft_handle()], with the reading [now] of [millis()]. *)
Definition tft_handle (now : Z) (s : Sketch) : Sketch :=
  let s :=
    if (everySecond_tick s <? now) || sm_screen_forceRefresh (globals s) then
      let s :=
        if negb (sm_screen_forceRefresh (globals s)) then
          tft_handle_nextScreen
            (mkSketch (globals s) (u32 (now + 1000)) (t_minute_last s)
                      (sm_nextScreen s) (sm_timeToNextScreen s)
                      (tft_touchIRQ s))
        else s in
      if negb (t_minute_last s =? t_minute (clock (globals s)))
         || sm_screen_forceRefresh (globals s) then
        let s :=
          if negb (sm_screen_forceRefresh (globals s)) then
            mkSketch (globals s) (everySecond_tick s)
                     (t_minute (clock (globals s))) (sm_nextScreen s)
                     (sm_timeToNextScreen s) (tft_touchIRQ s)
          else s in
        draw_screen s
      else s
    else s in
  if sm_screen_forceRefresh (globals s) then
    with_globals (with_screen (sm_screen (globals s)) false (globals s)) s
  else s.

(** The loop [while (!digitalRead(TOUCH_IRQ))] of [tft_touch_handle], for a
    screen that stays pressed during [held] more iterations. *)
Fixpoint touch_hold (held : nat) (pressedTime option : Z) : Z * Z :=
  match held with
  | O => (pressedTime, option)
  | S k =>
      let pressedTime := u32 (pressedTime + 1) in
      let option :=
        if pressedTime =? 1000 then 1
        else if pressedTime =? 2000 then 2
        else if pressedTime =? 3000 then 3
        else if pressedTime =? 4000 then 4
        else if pressedTime =? 6000 then 5
        else if pressedTime =? 8000 then 6
        else if pressedTime =? 10000 then 99
        else option in
      touch_hold k pressedTime option
  end.

(** [void tft_touch_handle()].  [pressed] is the pin read after the debounce
    delay and [held] the number of milliseconds the screen stays pressed from
    then on; [None] stands for the restart of the ESP. *)
Definition tft_touch_handle (pressed : bool) (held : nat) (s : Sketch)
  : option Sketch :=
  if tft_touchIRQ s then
    let s := mkSketch (globals s) (everySecond_tick s) (t_minute_last s)
                      (sm_nextScreen s) (sm_timeToNextScreen s) false in
    if pressed then
      let g := globals s in
      if (sm_screen g =? SM_SCREEN_OFF) || (sm_screen g =? SM_SCREEN_IDLE) then
        let option := snd (touch_hold held 0 0) in
        let refreshed (g : Globals) :=
          Some (with_globals (with_screen (sm_screen g) true g) s) in
        if option =? 1 then
          refreshed (with_screen SM_SCREEN_STATS_PS5
                                 (sm_screen_forceRefresh g) g)
        else if option =? 2 then
          refreshed (with_screen SM_SCREEN_STATS_SWITCH
                                 (sm_screen_forceRefresh g) g)
        else if option =? 3 then
          refreshed (with_screen SM_SCREEN_STATS_ALL
                                 (sm_screen_forceRefresh g) g)
        else if option =? 4 then
          refreshed (with_screen SM_SCREEN_INFO (sm_screen_forceRefresh g) g)
        else if option =? 5 then None
        else if option =? 6 then refreshed (fs_reset_data_file g)
        else
          refreshed (with_screen SM_SCREEN_IDLE (sm_screen_forceRefresh g) g)
      else Some s
    else Some s
  else Some s.

(** ** Connection callbacks *)

(** [void denon_disconnected(void* arg, AsyncClient* client)] *)
Definition denon_disconnected (st : Globals) : Globals :=
  with_screen SM_SCREEN_IDLE true st.

(** [void denon_conError(const char *errorMessage)] *)
Definition denon_conError (st : Globals) : Globals :=
  with_screen SM_SCREEN_IDLE true st.

(** ** Notions used in the statements *)

(** The record in the data file holds the ten counters of the memory. *)
Definition in_sync (st : Globals) : Prop :=
  exists data,
    data_json (flash st) = Some (Parsed data) /\
    forall c, data !! key_of c = Some (counter c (mins st)).

(** The option a press of [pressedTime] milliseconds ends on. *)
Definition option_of (pressedTime : Z) : Z :=
  if pressedTime <? 1000 then 0
  else if pressedTime <? 2000 then 1
  else if pressedTime <? 3000 then 2
  else if pressedTime <? 4000 then 3
  else if pressedTime <? 6000 then 4
  else if pressedTime <? 8000 then 5
  else if pressedTime <? 10000 then 6
  else 99.

(** Two decimal digits. *)
Definition two_digits (n : Z) : string :=
  String (digit_char (n / 10)) (String (digit_char (n mod 10)) "").

(** Successive calls of [tft_handle], one per reading of [millis()]. *)
Definition tft_handles (nows : list Z) (s : Sketch) : Sketch :=
  fold_left (fun s now => tft_handle now s) nows s.

(** Readings of [millis()] more than a second apart, starting after the
    tick [tick], and none within a second of the wrap-around. *)
Fixpoint seconds_apart (tick : Z) (nows : list Z) : Prop :=
  match nows with
  | [] => True
  | now :: rest =>
      tick < now /\ 0 <= now /\ now + 1000 < 2 ^ 32 /\
      seconds_apart (now + 1000) rest
  end.


(** The document a save starts from: the one in the file, or the empty one
    of a file it has just created. *)
Definition stored_data (fs : LittleFS) : option (gmap string Z) :=
  match data_json fs with
  | None => Some ∅
  | Some c => deserializeJson c
  end.

(** Two strings agree on their first [n] characters (a string shorter than
    [n] counts with its end). *)
Definition agree_upto (n : Z) (s1 s2 : string) : Prop :=
  substring 0 (Z.to_nat n) s1 = substring 0 (Z.to_nat n) s2.

(** Carriage return, which ends a message of the receiver. *)
Definition CR : string := String (ascii_of_nat 13) "".

(** Every counter holds a [uint32_t] value. *)
Definition uint32_counters (m : Counters) : Prop :=
  forall c, 0 <= counter c m < 2 ^ 32.

(** The console a counter belongs to. *)
Definition owner (c : Counter) : ActiveInput :=
  match c with
  | Ps5Today | Ps5Week | Ps5Month | Ps5Year | Ps5Sum => PS5
  | _ => Switch
  end.

(** Successive firings of the minute tick, one per reading of [millis()]. *)
Definition minutes_fired (nows : list Z) (st : Globals) : Globals :=
  fold_left (fun s now => fst (minute_fired now s false)) nows st.

(** One iteration of [loop()]: [time_handle], then the remaining handlers
    (display, touch screen, NTP, OTA), whose effect on the globals is
    [others]. *)
Definition loop_iteration (now : Z) (others : Globals -> Globals)
  (st : Globals) : Globals :=
  others (time_handle now st).

(** Whether a call of [time_handle] enters the session-end block: its test
    is evaluated on the globals left by the first block. *)
Definition enters_session_end (now : Z) (st : Globals) : bool :=
  session_ends (clock (fst (minute_tick now st false))).

(** How many iterations of [loop()] enter the session-end block. *)
Fixpoint session_end_runs (polls : list (Z * (Globals -> Globals)))
  (st : Globals) : nat :=
  match polls with
  | [] => O
  | (now, others) :: rest =>
      ((if enters_session_end now st then 1 else 0)
       + session_end_runs rest (loop_iteration now others st))%nat
  end.

(** * Properties *)

(** ** What the filesystem functions leave alone *)

Lemma fs_create_data_file_frame st :
  let st' := fst (fs_create_data_file st) in
  mins st' = mins st /\ clock st' = clock st /\
  everyMinute_tick st' = everyMinute_tick st /\
  sm_screen st' = sm_screen st /\ avr_sent st' = avr_sent st.
Proof.
  unfold fs_create_data_file, LittleFS_open_w.
  destruct (writable (flash st)); simpl; auto.
Qed.

Lemma save_opened_frame c st :
  let st' := save_opened c st in
  mins st' = mins st /\ clock st' = clock st /\
  everyMinute_tick st' = everyMinute_tick st /\
  sm_screen st' = sm_screen st /\ avr_sent st' = avr_sent st.
Proof.
  unfold save_opened. destruct (deserializeJson c); simpl; auto.
Qed.

Lemma fs_save_data_file_frame st :
  let st' := fs_save_data_file st in
  mins st' = mins st /\ clock st' = clock st /\
  everyMinute_tick st' = everyMinute_tick st /\
  sm_screen st' = sm_screen st /\ avr_sent st' = avr_sent st.
Proof.
  unfold fs_save_data_file, LittleFS_open_existing.
  destruct (data_json (flash st)) as [c|].
  - apply save_opened_frame.
  - pose proof (fs_create_data_file_frame st) as Hc.
    destruct (fs_create_data_file st) as [st1 created]. simpl in Hc.
    destruct created; simpl; [|exact Hc].
    destruct (data_json (flash st1)) as [c|]; [|exact Hc].
    pose proof (save_opened_frame c st1) as Hs. simpl in Hs.
    intuition congruence.
Qed.

Lemma fs_save_data_file_mins st : mins (fs_save_data_file st) = mins st.
Proof. apply fs_save_data_file_frame. Qed.

Lemma fs_save_data_file_clock st : clock (fs_save_data_file st) = clock st.
Proof. apply fs_save_data_file_frame. Qed.

Lemma fs_save_data_file_screen st :
  sm_screen (fs_save_data_file st) = sm_screen st.
Proof. apply fs_save_data_file_frame. Qed.

(** A missing file on a flash that accepts writes is created as [{}]. *)
Lemma fs_create_data_file_ok st :
  writable (flash st) = true ->
  fs_create_data_file st = (with_flash (mkFS (Some (Parsed ∅)) true) st, true).
Proof.
  intros Hw. unfold fs_create_data_file, LittleFS_open_w. rewrite Hw.
  reflexivity.
Qed.

Lemma fs_create_data_file_fails st :
  writable (flash st) = false -> fs_create_data_file st = (st, false).
Proof.
  intros Hw. unfold fs_create_data_file, LittleFS_open_w. rewrite Hw.
  reflexivity.
Qed.

(** ** The record written by a save *)

Lemma key_of_inj c1 c2 : key_of c1 = key_of c2 -> c1 = c2.
Proof. destruct c1, c2; simpl; intros H; try reflexivity; discriminate H. Qed.

(** Each of the ten keys holds its counter after the assignments. *)
Lemma update_data_key m data c :
  update_data m data !! key_of c = Some (counter c m).
Proof.
  unfold update_data.
  destruct c; simpl;
    repeat (first [ rewrite lookup_insert_eq; reflexivity
                  | rewrite lookup_insert_ne by discriminate ]).
Qed.

(** Keys other than the ten are carried over from the document read. *)
Lemma update_data_other m data k :
  (forall c, k <> key_of c) -> update_data m data !! k = data !! k.
Proof.
  intros Hk. unfold update_data.
  pose proof (Hk Ps5Today). pose proof (Hk Ps5Week). pose proof (Hk Ps5Month).
  pose proof (Hk Ps5Year). pose proof (Hk Ps5Sum). pose proof (Hk SwitchToday).
  pose proof (Hk SwitchWeek). pose proof (Hk SwitchMonth).
  pose proof (Hk SwitchYear). pose proof (Hk SwitchSum). simpl in *.
  repeat (rewrite lookup_insert_ne by congruence). reflexivity.
Qed.

Lemma fs_save_data_file_writes st data :
  writable (flash st) = true ->
  stored_data (flash st) = Some data ->
  flash (fs_save_data_file st)
  = mkFS (Some (Parsed (update_data (mins st) data))) true.
Proof.
  intros Hw Hd. unfold stored_data in Hd.
  unfold fs_save_data_file, LittleFS_open_existing.
  destruct (data_json (flash st)) as [c|] eqn:Hf.
  - unfold save_opened. rewrite Hd. unfold File_rewrite. rewrite Hw.
    reflexivity.
  - rewrite (fs_create_data_file_ok st Hw). simpl.
    injection Hd as <-. reflexivity.
Qed.

(** ** Saving over a record that does not parse *)

Lemma fs_save_data_file_unparsable st raw :
  data_json (flash st) = Some (Unparsable raw) -> fs_save_data_file st = st.
Proof.
  intros Hf. unfold fs_save_data_file, LittleFS_open_existing. rewrite Hf.
  reflexivity.
Qed.

(** C10. When the data file exists and its content does not parse,
    [fs_save_data_file] changes nothing at all: neither the file nor any
    global, whatever the counters hold.  [fs_reset_data_file] then zeroes the
    counters in memory only; the file keeps its content. *)
Theorem fs_save_data_file_unparsable_noop st raw :
  data_json (flash st) = Some (Unparsable raw) ->
  fs_save_data_file st = st /\
  (forall m, fs_save_data_file (with_mins m st) = with_mins m st) /\
  fs_reset_data_file st = with_mins zero_counters st /\
  flash (fs_reset_data_file st) = flash st.
Proof.
  intros Hf.
  assert (Hsave : forall m, fs_save_data_file (with_mins m st) = with_mins m st).
  { intros m. apply (fs_save_data_file_unparsable _ raw). exact Hf. }
  repeat split.
  - apply (fs_save_data_file_unparsable _ raw). exact Hf.
  - exact Hsave.
  - apply Hsave.
  - unfold fs_reset_data_file. rewrite Hsave. reflexivity.
Qed.

Lemma fs_save_data_file_unparsable_noop_witness :
  let st :=
    mkGlobals (mkCounters 5 60 60 60 60 0 0 0 0 0) (mkClock 21 30 14 3 2024 4)
              0 SM_SCREEN_PLAY_PS5 false
              (mkFS (Some (Unparsable "{ps_t:5,")) true) [] in
  fs_save_data_file st = st /\
  (forall m, fs_save_data_file (with_mins m st) = with_mins m st) /\
  fs_reset_data_file st = with_mins zero_counters st /\
  flash (fs_reset_data_file st) = flash st.
Proof.
  intros st. apply (fs_save_data_file_unparsable_noop st "{ps_t:5,").
  reflexivity.
Defined.

(** ** The end of the session *)

(** What the resets do to each counter, read off the three tests. *)
Lemma reset_periods_eq c m :
  reset_periods c m
  = mkCounters
      0
      (if t_weekday c =? CLOCK_STARTWEEK_DAY then 0 else time_ps5_week_mins m)
      (if t_day c =? 1 then 0 else time_ps5_month_mins m)
      (if (t_day c =? 1) && (t_month c =? 0) then 0 else time_ps5_year_mins m)
      (time_ps5_sum_mins m)
      0
      (if t_weekday c =? CLOCK_STARTWEEK_DAY then 0
       else time_switch_week_mins m)
      (if t_day c =? 1 then 0 else time_switch_month_mins m)
      (if (t_day c =? 1) && (t_month c =? 0) then 0
       else time_switch_year_mins m)
      (time_switch_sum_mins m).
Proof.
  destruct m. unfold reset_periods.
  destruct (t_weekday c =? CLOCK_STARTWEEK_DAY), (t_day c =? 1),
    (t_month c =? 0); reflexivity.
Qed.

Lemma reset_periods_spec c m :
  let m' := reset_periods c m in
  time_ps5_today_mins m' = 0 /\ time_switch_today_mins m' = 0 /\
  time_ps5_week_mins m'
  = (if t_weekday c =? CLOCK_STARTWEEK_DAY then 0 else time_ps5_week_mins m) /\
  time_switch_week_mins m'
  = (if t_weekday c =? CLOCK_STARTWEEK_DAY then 0
     else time_switch_week_mins m) /\
  time_ps5_month_mins m'
  = (if t_day c =? 1 then 0 else time_ps5_month_mins m) /\
  time_switch_month_mins m'
  = (if t_day c =? 1 then 0 else time_switch_month_mins m) /\
  time_ps5_year_mins m'
  = (if (t_day c =? 1) && (t_month c =? 0) then 0 else time_ps5_year_mins m) /\
  time_switch_year_mins m'
  = (if (t_day c =? 1) && (t_month c =? 0) then 0
     else time_switch_year_mins m) /\
  time_ps5_sum_mins m' = time_ps5_sum_mins m /\
  time_switch_sum_mins m' = time_switch_sum_mins m.
Proof.
  intros m'. subst m'. rewrite reset_periods_eq. simpl.
  repeat split; reflexivity.
Qed.

(** The resets are idempotent under one clock reading. *)
Lemma reset_periods_idempotent c m :
  reset_periods c (reset_periods c m) = reset_periods c m.
Proof.
  rewrite (reset_periods_eq c (reset_periods c m)).
  rewrite (reset_periods_eq c m). simpl.
  destruct (t_weekday c =? CLOCK_STARTWEEK_DAY), (t_day c =? 1),
    (t_month c =? 0); reflexivity.
Qed.

(** The year counters survive the resets in every month numbered from 1. *)
Lemma reset_periods_keeps_year c m :
  1 <= t_month c ->
  time_ps5_year_mins (reset_periods c m) = time_ps5_year_mins m /\
  time_switch_year_mins (reset_periods c m) = time_switch_year_mins m.
Proof.
  intros Hm. pose proof (reset_periods_spec c m) as H. simpl in H.
  destruct H as (_ & _ & _ & _ & _ & _ & Hp & Hs & _).
  rewrite Hp, Hs.
  assert ((t_month c =? 0) = false) as -> by (apply Z.eqb_neq; lia).
  rewrite andb_false_r. split; reflexivity.
Qed.

(** C1. On Monday 1 January 2024 at 06:00 the clock holds day 1 and month 1:
    [clock_getDateString] shows it as 01.01.2024.  [time_handle] then zeroes
    the today, week and month counters of both consoles and keeps the sum
    counters, but it leaves the year counters (900 and 400 minutes) as they
    are, because the year reset is tied to [t_month == 0]. *)
Theorem time_handle_new_year_keeps_year :
  let st :=
    mkGlobals (mkCounters 30 120 500 900 2000 10 20 300 400 1000)
              (mkClock 6 0 1 1 2024 1)
              4000000 SM_SCREEN_IDLE false
              (mkFS (Some (Parsed ∅)) true) [] in
  clock_getDateString (clock st) = "01.01.2024" /\
  session_ends (clock st) = true /\
  mins (time_handle 1000 st) = mkCounters 0 0 0 900 2000 0 0 0 400 1000.
Proof.
  intros st. split; [reflexivity|]. split; [reflexivity|].
  vm_compute. reflexivity.
Qed.

(** C7. Running the session-end block a second time on the globals left by
    a first run, under the same clock, gives back those globals: the clock is
    not touched by the block and the resets are idempotent. *)
Theorem day_rollover_idempotent st doSave1 doSave2 :
  let st1 := fst (day_rollover st doSave1) in
  clock st1 = clock st /\
  fst (day_rollover st1 doSave2) = st1 /\
  reset_periods (clock st) (reset_periods (clock st) (mins st))
  = reset_periods (clock st) (mins st).
Proof.
  unfold day_rollover.
  destruct (session_ends (clock st)) eqn:Hs; simpl.
  - rewrite Hs. simpl. rewrite reset_periods_idempotent.
    repeat split; apply reset_periods_idempotent.
  - rewrite Hs. simpl. repeat split; apply reset_periods_idempotent.
Qed.

(** ** Minute ticks *)

Lemma minute_fired_screen now st doSave :
  sm_screen (fst (minute_fired now st doSave)) = sm_screen st.
Proof.
  unfold minute_fired, count_minute. simpl.
  destruct (sm_screen st =? SM_SCREEN_PLAY_PS5);
    [|destruct (sm_screen st =? SM_SCREEN_PLAY_SWITCH)]; reflexivity.
Qed.

Lemma minute_fired_active now st doSave :
  active_input (fst (minute_fired now st doSave)) = active_input st.
Proof. unfold active_input. rewrite minute_fired_screen. reflexivity. Qed.

(** A firing adds one minute, in [uint32_t], to the counters of the active
    console. *)
Lemma minute_fired_owner now st doSave c :
  owner c = active_input st ->
  counter c (mins (fst (minute_fired now st doSave)))
  = u32 (counter c (mins st) + 1).
Proof.
  unfold minute_fired, count_minute, active_input. simpl.
  destruct (sm_screen st =? SM_SCREEN_PLAY_PS5);
    [|destruct (sm_screen st =? SM_SCREEN_PLAY_SWITCH)];
    destruct c; simpl; intros H; try discriminate H; reflexivity.
Qed.

(** It leaves the other counters alone. *)
Lemma minute_fired_other now st doSave c :
  owner c <> active_input st ->
  counter c (mins (fst (minute_fired now st doSave))) = counter c (mins st).
Proof.
  unfold minute_fired, count_minute, active_input. simpl.
  destruct (sm_screen st =? SM_SCREEN_PLAY_PS5);
    [|destruct (sm_screen st =? SM_SCREEN_PLAY_SWITCH)];
    destruct c; simpl; intros H; try reflexivity; contradiction H; reflexivity.
Qed.

Lemma minutes_fired_active nows : forall st,
  active_input (minutes_fired nows st) = active_input st.
Proof.
  induction nows as [|now rest IH]; intros st; [reflexivity|].
  unfold minutes_fired in *. simpl. rewrite IH. apply minute_fired_active.
Qed.

Lemma minutes_fired_owner c nows : forall st,
  owner c = active_input st ->
  counter c (mins (minutes_fired nows st))
  = match nows with
    | [] => counter c (mins st)
    | _ => u32 (counter c (mins st) + Z.of_nat (length nows))
    end.
Proof.
  induction nows as [|now rest IH]; intros st Hown; [reflexivity|].
  change (minutes_fired (now :: rest) st)
    with (minutes_fired rest (fst (minute_fired now st false))).
  rewrite IH by (rewrite minute_fired_active; exact Hown).
  rewrite (minute_fired_owner now st false c Hown).
  destruct rest as [|now' rest'].
  - reflexivity.
  - unfold u32. rewrite Zplus_mod_idemp_l. f_equal.
    change (length (now :: now' :: rest')) with (S (length (now' :: rest'))).
    lia.
Qed.

Lemma minutes_fired_other c nows : forall st,
  owner c <> active_input st ->
  counter c (mins (minutes_fired nows st)) = counter c (mins st).
Proof.
  induction nows as [|now rest IH]; intros st Hown; [reflexivity|].
  change (minutes_fired (now :: rest) st)
    with (minutes_fired rest (fst (minute_fired now st false))).
  rewrite IH by (rewrite minute_fired_active; exact Hown).
  apply minute_fired_other. exact Hown.
Qed.

Lemma minutes_fired_owner_mod c nows st :
  uint32_counters (mins st) ->
  owner c = active_input st ->
  counter c (mins (minutes_fired nows st))
  = (counter c (mins st) + Z.of_nat (length nows)) mod 2 ^ 32.
Proof.
  intros Hrange Hown. rewrite (minutes_fired_owner c nows st Hown).
  destruct nows; [|reflexivity].
  simpl. rewrite Z.add_0_r. symmetry. apply Z.mod_small. apply Hrange.
Qed.

(** C2, as the code has it.  After [n] firings of the minute tick, each
    counter of the active console holds its former value plus [n] reduced
    modulo [2 ^ 32], which is the former value plus [n] as long as that sum
    fits [uint32_t]; every counter of the other console is unchanged, and so
    are all ten when no play screen is shown. *)
Theorem minutes_fired_counters nows st c :
  uint32_counters (mins st) ->
  let n := Z.of_nat (length nows) in
  let st' := minutes_fired nows st in
  (owner c = active_input st ->
   counter c (mins st') = (counter c (mins st) + n) mod 2 ^ 32 /\
   (counter c (mins st) + n < 2 ^ 32 ->
    counter c (mins st') = counter c (mins st) + n)) /\
  (owner c <> active_input st -> counter c (mins st') = counter c (mins st)) /\
  (active_input st = NoInput -> mins st' = mins st).
Proof.
  intros Hrange n st'. subst n st'.
  pose proof (minutes_fired_owner_mod c nows st Hrange) as Hmod.
  split; [|split].
  - intros Hown. split; [exact (Hmod Hown)|].
    intros Hfit. rewrite (Hmod Hown). apply Z.mod_small.
    pose proof (Hrange c). lia.
  - apply minutes_fired_other.
  - intros Hnone.
    assert (Hall : forall c', counter c' (mins (minutes_fired nows st))
                              = counter c' (mins st)).
    { intros c'. apply minutes_fired_other. rewrite Hnone.
      destruct c'; discriminate. }
    pose proof (Hall Ps5Today). pose proof (Hall Ps5Week).
    pose proof (Hall Ps5Month). pose proof (Hall Ps5Year).
    pose proof (Hall Ps5Sum). pose proof (Hall SwitchToday).
    pose proof (Hall SwitchWeek). pose proof (Hall SwitchMonth).
    pose proof (Hall SwitchYear). pose proof (Hall SwitchSum). simpl in *.
    destruct (mins (minutes_fired nows st)), (mins st). simpl in *.
    congruence.
Qed.

Lemma minutes_fired_counters_witness :
  let st :=
    mkGlobals (mkCounters 5 60 60 60 60 1 2 3 4 5) (mkClock 21 30 14 3 2024 4)
              0 SM_SCREEN_PLAY_PS5 false (mkFS (Some (Parsed ∅)) true) [] in
  let st' := minutes_fired [60001; 120002; 180003] st in
  counter Ps5Week (mins st') = 63 /\ counter SwitchWeek (mins st') = 2.
Proof.
  intros st st'.
  assert (Hrange : uint32_counters (mins st)).
  { intros c. destruct c; simpl; lia. }
  split.
  - destruct (minutes_fired_counters [60001; 120002; 180003] st Ps5Week Hrange)
      as [Hown _].
    destruct (Hown eq_refl) as [_ Hfit]. apply Hfit. simpl. lia.
  - destruct (minutes_fired_counters [60001; 120002; 180003] st SwitchWeek
                Hrange) as (_ & Hother & _).
    apply Hother. discriminate.
Defined.

(** C2, counterexample.  With the PS5 play screen shown and the PS5 counters
    at [2 ^ 32 - 1], one firing of the minute tick brings them to 0, not to
    [2 ^ 32]. *)
Lemma minute_fired_wraps :
  let st :=
    mkGlobals (mkCounters 4294967295 4294967295 4294967295 4294967295
                          4294967295 0 0 0 0 0)
              (mkClock 21 30 14 3 2024 4)
              0 SM_SCREEN_PLAY_PS5 false (mkFS (Some (Parsed ∅)) true) [] in
  let st' := minutes_fired [60001] st in
  active_input st = PS5 /\
  uint32_counters (mins st) /\
  counter Ps5Today (mins st') = 0 /\
  counter Ps5Today (mins st') <> counter Ps5Today (mins st) + 1.
Proof.
  intros st st'. split; [reflexivity|]. split.
  - intros c. destruct c; simpl; lia.
  - split; [reflexivity|]. vm_compute. discriminate.
Qed.

(** ** Loading the data file *)

Lemma load_content_unparsable raw st : load_content (Unparsable raw) st = st.
Proof. reflexivity. Qed.

(** One counter after the keys of a parsed document have been read. *)
Lemma load_content_counter data st c :
  counter c (mins (load_content (Parsed data) st))
  = read_key data (key_of c) (counter c (mins st)).
Proof. destruct c; reflexivity. Qed.

Lemma load_content_empty st : load_content (Parsed ∅) st = st.
Proof.
  unfold load_content, read_key. simpl. rewrite !lookup_empty.
  destruct st as [m ? ? ? ? ? ?]. destruct m. reflexivity.
Qed.

(** A stored value that fits [int32_t] and is not negative is read as is. *)
Lemma u32_as_int32 v : 0 <= v <= INT32_MAX -> u32 (as_int32 v) = v.
Proof.
  unfold as_int32, u32, INT32_MIN, INT32_MAX. intros Hv.
  destruct (Z.leb_spec (- 2 ^ 31) v); [|lia].
  destruct (Z.leb_spec v (2 ^ 31 - 1)); [|lia].
  simpl. apply Z.mod_small. lia.
Qed.

(** C3, as the code has it.  When the data file is missing and the flash
    accepts writes, [fs_load_data_file] creates the empty record [{}] and
    leaves the ten counters in memory as they were; when the file exists but
    does not parse, it changes neither the file nor any global.  In both
    cases it returns 0, and at startup, where the counters are
    zero-initialised, [time_init] ends with all ten counters at zero. *)
Theorem fs_load_data_file_missing_or_unparsable st :
  (data_json (flash st) = None -> writable (flash st) = true ->
   data_json (flash (fst (fs_load_data_file st))) = Some (Parsed ∅) /\
   mins (fst (fs_load_data_file st)) = mins st) /\
  (forall raw, data_json (flash st) = Some (Unparsable raw) ->
   fst (fs_load_data_file st) = st) /\
  snd (fs_load_data_file st) = 0 /\
  (forall fs now,
     data_json fs = None \/ (exists raw, data_json fs = Some (Unparsable raw)) ->
     mins (time_init now (boot fs)) = zero_counters).
Proof.
  split; [|split; [|split]].
  - intros Hf Hw. unfold fs_load_data_file, LittleFS_open_existing.
    rewrite Hf, (fs_create_data_file_ok st Hw).
    cbn [negb fst snd flash with_flash data_json].
    rewrite load_content_empty. split; reflexivity.
  - intros raw Hf. unfold fs_load_data_file, LittleFS_open_existing.
    rewrite Hf. reflexivity.
  - unfold fs_load_data_file, LittleFS_open_existing.
    destruct (data_json (flash st)); [reflexivity|].
    destruct (fs_create_data_file st) as [st1 created].
    destruct created; simpl; [|reflexivity].
    destruct (data_json (flash st1)); reflexivity.
  - intros fs now Hfs. unfold time_init, fs_load_data_file,
      LittleFS_open_existing. simpl.
    destruct Hfs as [Hf | [raw Hf]]; rewrite Hf; [|reflexivity].
    unfold fs_create_data_file, LittleFS_open_w. simpl.
    destruct (writable fs); reflexivity.
Qed.

Lemma fs_load_data_file_missing_or_unparsable_witness :
  let st :=
    mkGlobals (mkCounters 5 60 60 60 60 1 2 3 4 5) (mkClock 21 30 14 3 2024 4)
              0 SM_SCREEN_IDLE false (mkFS None true) [] in
  data_json (flash (fst (fs_load_data_file st))) = Some (Parsed ∅) /\
  mins (fst (fs_load_data_file st)) = mins st.
Proof.
  intros st.
  destruct (fs_load_data_file_missing_or_unparsable st) as [Hmissing _].
  apply Hmissing; reflexivity.
Defined.

(** C3, counterexample.  At startup over a file that does not parse, loading
    writes no fresh record: the file keeps its content.  On power-on over a
    missing file, the counters in memory are not zeroed. *)
Lemma fs_load_data_file_no_recovery :
  (let st := boot (mkFS (Some (Unparsable "{ps_t:5,")) true) in
   data_json (flash (fst (fs_load_data_file st)))
   = Some (Unparsable "{ps_t:5,") /\
   data_json (flash (fst (fs_load_data_file st))) <> Some (Parsed ∅)) /\
  (let st :=
     mkGlobals (mkCounters 5 60 60 60 60 1 2 3 4 5)
               (mkClock 21 30 14 3 2024 4)
               0 SM_SCREEN_IDLE false (mkFS None true) [] in
   data_json (flash st) = None /\
   mins (fst (fs_load_data_file st)) = mkCounters 5 60 60 60 60 1 2 3 4 5 /\
   mins (fst (fs_load_data_file st)) <> zero_counters).
Proof.
  split.
  - split; [reflexivity|]. simpl. discriminate.
  - split; [reflexivity|]. split; [reflexivity|]. simpl. discriminate.
Qed.

(** C5, as the code has it.  Loading a record that parses gives each counter
    whose key is present the stored value converted to [int32_t] and then to
    [uint32_t], which is the stored value itself when that lies between 0
    and [INT32_MAX].  A counter whose key is missing keeps the value it had
    in memory, which is 0 at startup: [time_init] over the record
    [{ps_t:5, sw_t:0, ps_w:60}] yields 5 for today (PS5), 0 for today
    (Switch), 60 for week (PS5) and 0 for the seven others. *)
Theorem fs_load_data_file_keys st data c :
  data_json (flash st) = Some (Parsed data) ->
  let st' := fst (fs_load_data_file st) in
  (forall v, data !! key_of c = Some v ->
     counter c (mins st') = u32 (as_int32 v) /\
     (0 <= v <= INT32_MAX -> counter c (mins st') = v)) /\
  (data !! key_of c = None ->
     counter c (mins st') = counter c (mins st) /\
     (mins st = zero_counters -> counter c (mins st') = 0)) /\
  (forall now w,
     mins (time_init now
             (boot (mkFS (Some (Parsed {[ TIME_PS5_TODAY := 5;
                                          TIME_SWITCH_TODAY := 0;
                                          TIME_PS5_WEEK := 60 ]})) w)))
     = mkCounters 5 60 0 0 0 0 0 0 0 0).
Proof.
  intros Hf st'. subst st'.
  assert (Hload : fst (fs_load_data_file st) = load_content (Parsed data) st).
  { unfold fs_load_data_file, LittleFS_open_existing. rewrite Hf.
    reflexivity. }
  rewrite Hload, load_content_counter. unfold read_key.
  split; [|split].
  - intros v Hv. rewrite Hv. split; [reflexivity|]. apply u32_as_int32.
  - intros Hnone. rewrite Hnone. split; [reflexivity|].
    intros Hz. rewrite Hz. destruct c; reflexivity.
  - intros now w. vm_compute. reflexivity.
Qed.

Lemma fs_load_data_file_keys_witness :
  let st :=
    mkGlobals zero_counters (mkClock 21 30 14 3 2024 4)
              0 SM_SCREEN_IDLE false
              (mkFS (Some (Parsed {[ TIME_PS5_TODAY := 5;
                                     TIME_SWITCH_TODAY := 0;
                                     TIME_PS5_WEEK := 60 ]})) true) [] in
  counter Ps5Week (mins (fst (fs_load_data_file st))) = 60 /\
  counter Ps5Month (mins (fst (fs_load_data_file st))) = 0.
Proof.
  intros st.
  destruct (fs_load_data_file_keys st
              {[ TIME_PS5_TODAY := 5; TIME_SWITCH_TODAY := 0;
                 TIME_PS5_WEEK := 60 ]} Ps5Week eq_refl) as [Hpresent _].
  destruct (fs_load_data_file_keys st
              {[ TIME_PS5_TODAY := 5; TIME_SWITCH_TODAY := 0;
                 TIME_PS5_WEEK := 60 ]} Ps5Month eq_refl) as (_ & Hmissing & _).
  split.
  - apply (Hpresent 60); [reflexivity|]. unfold INT32_MAX. lia.
  - apply Hmissing; reflexivity.
Defined.

(** C5, counterexample.  With 7 minutes on the PS5 week counter in memory,
    loading the record [{ps_t:5}], which has no key [ps_w], leaves that
    counter at 7 instead of 0. *)
Lemma fs_load_data_file_missing_key_kept :
  let st :=
    mkGlobals (mkCounters 0 7 0 0 0 0 0 0 0 0) (mkClock 21 30 14 3 2024 4)
              0 SM_SCREEN_IDLE false
              (mkFS (Some (Parsed {[ TIME_PS5_TODAY := 5 ]})) true) [] in
  ({[ TIME_PS5_TODAY := 5 ]} : gmap string Z) !! TIME_PS5_WEEK = None /\
  counter Ps5Today (mins (fst (fs_load_data_file st))) = 5 /\
  counter Ps5Week (mins (fst (fs_load_data_file st))) = 7 /\
  counter Ps5Week (mins (fst (fs_load_data_file st))) <> 0.
Proof.
  intros st. split; [reflexivity|]. split; [reflexivity|].
  split; [reflexivity|]. vm_compute. discriminate.
Qed.

(** ** Saving the data file *)

(** C4, as the code has it.  When the flash accepts writes and the data file
    is missing or holds a record that parses, [fs_save_data_file] leaves a
    record in which each of the ten keys maps to the current counter and
    every other key keeps the value it had in the record read; the counters
    in memory are untouched.  A file that does not parse is left as it is. *)
Theorem fs_save_data_file_updates st data :
  writable (flash st) = true ->
  stored_data (flash st) = Some data ->
  exists data',
    data_json (flash (fs_save_data_file st)) = Some (Parsed data') /\
    (forall c, data' !! key_of c = Some (counter c (mins st))) /\
    (forall k, (forall c, k <> key_of c) -> data' !! k = data !! k) /\
    mins (fs_save_data_file st) = mins st.
Proof.
  intros Hw Hd. exists (update_data (mins st) data).
  rewrite (fs_save_data_file_writes st data Hw Hd). simpl.
  split; [reflexivity|]. split; [|split].
  - intros c. apply update_data_key.
  - intros k Hk. apply update_data_other. exact Hk.
  - apply fs_save_data_file_mins.
Qed.

Lemma fs_save_data_file_updates_witness :
  let st :=
    mkGlobals (mkCounters 5 60 60 60 60 1 2 3 4 5) (mkClock 21 30 14 3 2024 4)
              0 SM_SCREEN_PLAY_PS5 false
              (mkFS (Some (Parsed {[ TIME_PS5_WEEK := 59 ]})) true) [] in
  exists data',
    data_json (flash (fs_save_data_file st)) = Some (Parsed data') /\
    (forall c, data' !! key_of c = Some (counter c (mins st))) /\
    (forall k, (forall c, k <> key_of c) ->
               data' !! k = ({[ TIME_PS5_WEEK := 59 ]} : gmap string Z) !! k) /\
    mins (fs_save_data_file st) = mins st.
Proof.
  intros st.
  apply (fs_save_data_file_updates st {[ TIME_PS5_WEEK := 59 ]});
    reflexivity.
Defined.

(** C4, counterexample.  Over a file that does not parse, a save writes
    nothing: the file keeps its bytes and holds none of the counters.  Over a
    record with a further key, that key survives the save, so the record
    written depends on the one read. *)
Lemma fs_save_data_file_not_wholesale :
  (let st :=
     mkGlobals (mkCounters 5 60 60 60 60 1 2 3 4 5)
               (mkClock 21 30 14 3 2024 4)
               0 SM_SCREEN_PLAY_PS5 false
               (mkFS (Some (Unparsable "{ps_t:5,")) true) [] in
   data_json (flash (fs_save_data_file st)) = Some (Unparsable "{ps_t:5,") /\
   stored_data (flash (fs_save_data_file st)) = None) /\
  (let st :=
     mkGlobals (mkCounters 5 60 60 60 60 1 2 3 4 5)
               (mkClock 21 30 14 3 2024 4)
               0 SM_SCREEN_PLAY_PS5 false
               (mkFS (Some (Parsed {[ "xbox_t" := 7 ]})) true) [] in
   exists data',
     data_json (flash (fs_save_data_file st)) = Some (Parsed data') /\
     data' !! "xbox_t" = Some 7).
Proof.
  split.
  - split; reflexivity.
  - eexists. split; [reflexivity|]. vm_compute. reflexivity.
Qed.

(** ** Polling during the session-end minute *)

Lemma minute_tick_clock now st doSave :
  clock (fst (minute_tick now st doSave)) = clock st.
Proof.
  unfold minute_tick, minute_fired, count_minute. simpl.
  destruct (everyMinute_tick st <? now); [|reflexivity].
  destruct (sm_screen st =? SM_SCREEN_PLAY_PS5);
    [|destruct (sm_screen st =? SM_SCREEN_PLAY_SWITCH)]; reflexivity.
Qed.

Lemma day_rollover_clock st doSave :
  clock (fst (day_rollover st doSave)) = clock st.
Proof.
  unfold day_rollover. destruct (session_ends (clock st)); reflexivity.
Qed.

Lemma time_handle_clock now st : clock (time_handle now st) = clock st.
Proof.
  unfold time_handle.
  pose proof (minute_tick_clock now st false) as H1.
  destruct (minute_tick now st false) as [st1 d1]. simpl in H1.
  pose proof (day_rollover_clock st1 d1) as H2.
  destruct (day_rollover st1 d1) as [st2 d2]. simpl in H2.
  destruct d2; [rewrite fs_save_data_file_clock|]; congruence.
Qed.

(** The test of the session-end block only looks at the clock. *)
Lemma enters_session_end_clock now st :
  enters_session_end now st = session_ends (clock st).
Proof. unfold enters_session_end. rewrite minute_tick_clock. reflexivity. Qed.

(** C6, as the code has it.  The session-end block is guarded by the level
    of the clock alone: with the clock at the session-end hour and minute 0,
    every call of [time_handle] enters it and leaves both today counters at
    zero, and over any run of [loop()] iterations whose other handlers keep
    the clock, it is entered once per iteration. *)
Theorem session_end_runs_every_iteration polls : forall st,
  session_ends (clock st) = true ->
  Forall (fun p : Z * (Globals -> Globals) =>
            forall s, clock (snd p s) = clock s) polls ->
  session_end_runs polls st = length polls /\
  (forall now,
     enters_session_end now st = true /\
     time_ps5_today_mins (mins (time_handle now st)) = 0 /\
     time_switch_today_mins (mins (time_handle now st)) = 0).
Proof.
  induction polls as [|[now others] rest IH]; intros st Hend Hkeep.
  - split; [reflexivity|]. intros now.
    split; [rewrite enters_session_end_clock; exact Hend|].
    unfold time_handle.
    pose proof (minute_tick_clock now st false) as H1.
    destruct (minute_tick now st false) as [st1 d1]. simpl in H1.
    unfold day_rollover. rewrite H1, Hend.
    rewrite fs_save_data_file_mins. simpl.
    pose proof (reset_periods_spec (clock st) (mins st1)) as Hs.
    simpl in Hs. destruct Hs as (Hp & Hs & _). split; assumption.
  - inversion Hkeep as [|p l Hothers Hrest]; subst.
    simpl in Hothers.
    assert (Hclock : clock (loop_iteration now others st) = clock st).
    { unfold loop_iteration. rewrite Hothers. apply time_handle_clock. }
    destruct (IH (loop_iteration now others st)) as [Hcount _].
    { rewrite Hclock. exact Hend. }
    { exact Hrest. }
    split.
    + simpl. rewrite enters_session_end_clock, Hend, Hcount. reflexivity.
    + destruct (IH st Hend Hrest) as [_ Hnow]. exact Hnow.
Qed.

Lemma session_end_runs_every_iteration_witness :
  let st :=
    mkGlobals (mkCounters 5 60 60 60 60 1 2 3 4 5) (mkClock 6 0 14 3 2024 4)
              4000000 SM_SCREEN_IDLE false (mkFS (Some (Parsed ∅)) true) [] in
  let polls := [(1000, fun s : Globals => s); (1010, fun s : Globals => s);
                (1020, fun s : Globals => s)] in
  session_end_runs polls st = 3%nat.
Proof.
  intros st polls.
  destruct (session_end_runs_every_iteration polls st) as [Hcount _].
  - reflexivity.
  - repeat constructor.
  - exact Hcount.
Defined.

(** C6, counterexample.  With the clock at 06:00, two successive iterations
    of [loop()] both enter the session-end block: it runs twice within the one
    minute, and each run rewrites the data file.  No earlier minute value is
    consulted. *)
Lemma session_end_runs_twice :
  let st :=
    mkGlobals (mkCounters 5 60 60 60 60 1 2 3 4 5) (mkClock 6 0 14 3 2024 4)
              4000000 SM_SCREEN_IDLE false (mkFS (Some (Parsed ∅)) true) [] in
  let polls := [(1000, fun s : Globals => s); (1010, fun s : Globals => s)] in
  session_ends (clock st) = true /\
  session_end_runs polls st = 2%nat /\
  ~ (session_end_runs polls st <= 1)%nat /\
  enters_session_end 1010 (time_handle 1000 st) = true.
Proof.
  intros st polls. split; [reflexivity|]. split; [reflexivity|].
  split; [|reflexivity].
  change (session_end_runs polls st) with 2%nat. lia.
Qed.

(** ** The callbacks of the receiver *)

Lemma strncmp_is_0_spec s1 : forall s2 n,
  strncmp_is_0 s1 s2 n = true <-> agree_upto n s1 s2.
Proof.
  unfold agree_upto.
  induction s1 as [|c1 r1 IH]; intros s2 n; simpl.
  - destruct (Z.leb_spec n 0) as [Hn|Hn].
    + replace (Z.to_nat n) with O by lia. destruct s2; simpl; tauto.
    + destruct (Z.to_nat n) as [|k] eqn:Hk; [lia|].
      destruct s2; simpl; split; intros H; try reflexivity; discriminate H.
  - destruct (Z.leb_spec n 0) as [Hn|Hn].
    + replace (Z.to_nat n) with O by lia. destruct s2; simpl; tauto.
    + destruct (Z.to_nat n) as [|k] eqn:Hk; [lia|].
      assert (Hk' : Z.to_nat (n - 1) = k) by lia.
      destruct s2 as [|c2 r2]; simpl.
      * split; intros H; discriminate H.
      * destruct (Ascii.eqb_spec c1 c2) as [->|Hne].
        -- rewrite IH, Hk'. split; intros H; [f_equal; exact H|].
           injection H as H. exact H.
        -- split; intros H; [discriminate H|]. injection H as H _.
           contradiction.
Qed.

Lemma load_content_frame c st :
  let st' := load_content c st in
  sm_screen st' = sm_screen st /\ avr_sent st' = avr_sent st /\
  flash st' = flash st /\ clock st' = clock st.
Proof.
  unfold load_content. destruct (deserializeJson c); simpl; auto.
Qed.

Lemma fs_load_data_file_frame st :
  let st' := fst (fs_load_data_file st) in
  sm_screen st' = sm_screen st /\ avr_sent st' = avr_sent st.
Proof.
  unfold fs_load_data_file, LittleFS_open_existing.
  destruct (data_json (flash st)) as [c|]; simpl.
  - pose proof (load_content_frame c st) as H. simpl in H. tauto.
  - pose proof (fs_create_data_file_frame st) as Hc.
    destruct (fs_create_data_file st) as [st1 created]. simpl in Hc.
    destruct created; simpl; [|tauto].
    destruct (data_json (flash st1)) as [c|]; simpl; [|tauto].
    pose proof (load_content_frame c st1) as H. simpl in H.
    intuition congruence.
Qed.

(** C9, as the code has it.  On a power-on message, [denon_powerChanged]
    loads the data file into the counters and asks the receiver for its
    selected input; it does not write [sm_screen], so the active input is the
    one it was before the call. *)
Theorem denon_powerChanged_on ON OFF INPUT_SOURCE response len st :
  strncmp_is_0 response ON (u32 (len - 1)) = true ->
  let st' := denon_powerChanged ON OFF INPUT_SOURCE response len st in
  mins st' = mins (fst (fs_load_data_file st)) /\
  flash st' = flash (fst (fs_load_data_file st)) /\
  avr_sent st' = avr_sent st ++ [(INPUT_SOURCE, "?")] /\
  sm_screen st' = sm_screen st /\
  active_input st' = active_input st.
Proof.
  intros Hon st'. subst st'. unfold denon_powerChanged. rewrite Hon.
  destruct (fs_load_data_file_frame st) as [Hscreen Hsent].
  unfold active_input. simpl. rewrite Hscreen, Hsent. repeat split.
Qed.

Lemma denon_powerChanged_on_witness :
  let st :=
    mkGlobals zero_counters (mkClock 21 30 14 3 2024 4)
              0 SM_SCREEN_STATS_PS5 false
              (mkFS (Some (Parsed {[ TIME_PS5_TODAY := 5 ]})) true) [] in
  let st' := denon_powerChanged "ON" "OFF" "SI" ("ON" +:+ CR) 3 st in
  mins st' = mins (fst (fs_load_data_file st)) /\
  flash st' = flash (fst (fs_load_data_file st)) /\
  avr_sent st' = avr_sent st ++ [("SI", "?")] /\
  sm_screen st' = sm_screen st /\
  active_input st' = active_input st.
Proof.
  intros st.
  apply (denon_powerChanged_on "ON" "OFF" "SI" ("ON" +:+ CR) 3 st).
  reflexivity.
Defined.

(** C9, counterexample.  A power-on message received while the PS5 play
    screen is shown leaves that screen in place: the active input is PS5
    after the call, not none. *)
Lemma denon_powerChanged_on_keeps_input :
  let st :=
    mkGlobals zero_counters (mkClock 21 30 14 3 2024 4)
              0 SM_SCREEN_PLAY_PS5 false
              (mkFS (Some (Parsed ∅)) true) [] in
  let st' := denon_powerChanged "ON" "OFF" "SI" ("ON" +:+ CR) 3 st in
  strncmp_is_0 ("ON" +:+ CR) "ON" (u32 (3 - 1)) = true /\
  avr_sent st' = [("SI", "?")] /\
  active_input st' = PS5 /\
  active_input st' <> NoInput.
Proof.
  intros st st'. split; [reflexivity|]. split; [reflexivity|].
  split; [reflexivity|]. vm_compute. discriminate.
Qed.

Lemma minutes_fired_flash nows : forall st,
  flash (minutes_fired nows st) = flash st.
Proof.
  induction nows as [|now rest IH]; intros st; [reflexivity|].
  change (minutes_fired (now :: rest) st)
    with (minutes_fired rest (fst (minute_fired now st false))).
  rewrite IH. unfold minute_fired, count_minute. simpl.
  destruct (sm_screen st =? SM_SCREEN_PLAY_PS5);
    [|destruct (sm_screen st =? SM_SCREEN_PLAY_SWITCH)]; reflexivity.
Qed.

Lemma denon_inputChanged_mins BLURAY_DISC GAME response len st :
  mins (denon_inputChanged BLURAY_DISC GAME response len st) = mins st.
Proof.
  unfold denon_inputChanged.
  destruct (strncmp_is_0 response (AVR_INPUT_PS5 BLURAY_DISC) (u32 (len - 1)));
    [|destruct (strncmp_is_0 response (AVR_INPUT_SWITCH GAME)
                  (u32 (len - 1)))];
    simpl; apply fs_save_data_file_mins.
Qed.

Lemma denon_inputChanged_flash BLURAY_DISC GAME response len st :
  flash (denon_inputChanged BLURAY_DISC GAME response len st)
  = flash (fs_save_data_file st).
Proof.
  unfold denon_inputChanged.
  destruct (strncmp_is_0 response (AVR_INPUT_PS5 BLURAY_DISC) (u32 (len - 1)));
    [|destruct (strncmp_is_0 response (AVR_INPUT_SWITCH GAME)
                  (u32 (len - 1)))];
    reflexivity.
Qed.

(** The input selected by [denon_inputChanged], from the two comparisons. *)
Lemma denon_inputChanged_active BLURAY_DISC GAME response len st :
  active_input (denon_inputChanged BLURAY_DISC GAME response len st)
  = if strncmp_is_0 response BLURAY_DISC (u32 (len - 1)) then PS5
    else if strncmp_is_0 response GAME (u32 (len - 1)) then Switch
    else NoInput.
Proof.
  unfold denon_inputChanged, AVR_INPUT_PS5, AVR_INPUT_SWITCH.
  destruct (strncmp_is_0 response BLURAY_DISC (u32 (len - 1)));
    [|destruct (strncmp_is_0 response GAME (u32 (len - 1)))]; reflexivity.
Qed.

(** C8, as the code has it.  [denon_inputChanged] calls [fs_save_data_file]
    and then selects the screen.  The ten counters are unchanged.  The save
    leaves the ten counters in the record when the flash accepts writes and
    the file is missing or parses, and leaves a file that does not parse as
    it is.  The active input becomes PS5 when the response and the PS5 input
    string agree on their first [len - 1] characters, else Switch when the
    response and the Switch input string do, else none; a response that is a
    proper prefix of an input string therefore selects that input.  After
    three firings of the minute tick with PS5 active and an input change
    that selects Switch, the PS5 counters are the former ones plus 3 modulo
    [2 ^ 32], the Switch counters are unchanged, Switch is active and the
    record holds all ten. *)
Theorem denon_inputChanged_effect BLURAY_DISC GAME response len st :
  let n := u32 (len - 1) in
  let changed := denon_inputChanged BLURAY_DISC GAME response len in
  mins (changed st) = mins st /\
  (writable (flash st) = true ->
   forall data, stored_data (flash st) = Some data ->
   exists data',
     data_json (flash (changed st)) = Some (Parsed data') /\
     forall c, data' !! key_of c = Some (counter c (mins st))) /\
  (forall raw, data_json (flash st) = Some (Unparsable raw) ->
   flash (changed st) = flash st) /\
  (active_input (changed st) = PS5 <-> agree_upto n response BLURAY_DISC) /\
  (active_input (changed st) = Switch <->
   ~ agree_upto n response BLURAY_DISC /\ agree_upto n response GAME) /\
  (active_input (changed st) = NoInput <->
   ~ agree_upto n response BLURAY_DISC /\ ~ agree_upto n response GAME) /\
  (forall nows data,
     length nows = 3%nat ->
     active_input st = PS5 ->
     uint32_counters (mins st) ->
     writable (flash st) = true ->
     stored_data (flash st) = Some data ->
     ~ agree_upto n response BLURAY_DISC ->
     agree_upto n response GAME ->
     let st' := changed (minutes_fired nows st) in
     active_input st' = Switch /\
     (forall c, owner c = PS5 ->
        counter c (mins st') = (counter c (mins st) + 3) mod 2 ^ 32) /\
     (forall c, owner c = Switch ->
        counter c (mins st') = counter c (mins st)) /\
     exists data',
       data_json (flash st') = Some (Parsed data') /\
       forall c, data' !! key_of c = Some (counter c (mins st'))).
Proof.
  intros n changed. subst n changed.
  pose proof (strncmp_is_0_spec response BLURAY_DISC (u32 (len - 1))) as Hps.
  pose proof (strncmp_is_0_spec response GAME (u32 (len - 1))) as Hsw.
  assert (Hflush : forall s data,
            writable (flash s) = true -> stored_data (flash s) = Some data ->
            exists data',
              data_json (flash (denon_inputChanged BLURAY_DISC GAME response
                                  len s)) = Some (Parsed data') /\
              forall c, data' !! key_of c = Some (counter c (mins s))).
  { intros s data Hw Hd. exists (update_data (mins s) data).
    rewrite denon_inputChanged_flash, (fs_save_data_file_writes s data Hw Hd).
    split; [reflexivity|]. intros c. apply update_data_key. }
  assert (Hactive : forall s,
            active_input (denon_inputChanged BLURAY_DISC GAME response len s)
            = if strncmp_is_0 response BLURAY_DISC (u32 (len - 1)) then PS5
              else if strncmp_is_0 response GAME (u32 (len - 1)) then Switch
              else NoInput).
  { intros s. apply denon_inputChanged_active. }
  split; [apply denon_inputChanged_mins|].
  split; [intros Hw data Hd; exact (Hflush st data Hw Hd)|].
  split.
  { intros raw Hf. rewrite denon_inputChanged_flash.
    rewrite (fs_save_data_file_unparsable st raw Hf). reflexivity. }
  rewrite (Hactive st).
  destruct (strncmp_is_0 response BLURAY_DISC (u32 (len - 1))) eqn:Eps;
    [|destruct (strncmp_is_0 response GAME (u32 (len - 1))) eqn:Esw].
  - assert (Ha : agree_upto (u32 (len - 1)) response BLURAY_DISC)
      by (apply Hps; reflexivity).
    split; [tauto|]. split; [split; [discriminate|tauto]|].
    split; [split; [discriminate|tauto]|].
    intros; contradiction.
  - assert (Ha : ~ agree_upto (u32 (len - 1)) response BLURAY_DISC)
      by (intros Ha; apply Hps in Ha; discriminate Ha).
    assert (Hb : agree_upto (u32 (len - 1)) response GAME)
      by (apply Hsw; reflexivity).
    split; [split; [discriminate|tauto]|]. split; [tauto|].
    split; [split; [discriminate|tauto]|].
    intros nows data Hlen Hact Hrange Hw Hd _ _ st'. subst st'.
    rewrite Hactive. split; [reflexivity|].
    rewrite denon_inputChanged_mins.
    split; [|split].
    + intros c Hc.
      rewrite (minutes_fired_owner_mod c nows st Hrange) by congruence.
      rewrite Hlen. reflexivity.
    + intros c Hc. apply minutes_fired_other. congruence.
    + destruct (Hflush (minutes_fired nows st) data) as (data' & Hfile & Hk).
      * rewrite minutes_fired_flash. exact Hw.
      * rewrite minutes_fired_flash. exact Hd.
      * exists data'. split; [exact Hfile|].
        intros c. rewrite Hk. reflexivity.
  - assert (Ha : ~ agree_upto (u32 (len - 1)) response BLURAY_DISC)
      by (intros Ha; apply Hps in Ha; discriminate Ha).
    assert (Hb : ~ agree_upto (u32 (len - 1)) response GAME)
      by (intros Hb; apply Hsw in Hb; discriminate Hb).
    split; [split; [discriminate|tauto]|].
    split; [split; [discriminate|tauto]|]. split; [tauto|].
    intros; contradiction.
Qed.

Lemma denon_inputChanged_effect_witness :
  let st :=
    mkGlobals (mkCounters 5 60 60 60 60 1 2 3 4 5) (mkClock 21 30 14 3 2024 4)
              0 SM_SCREEN_PLAY_PS5 false (mkFS (Some (Parsed ∅)) true) [] in
  let st' :=
    denon_inputChanged "BD" "GAME" ("GAME" +:+ CR) 5
      (minutes_fired [60001; 120002; 180003] st) in
  active_input st' = Switch /\
  (forall c, owner c = PS5 ->
     counter c (mins st') = (counter c (mins st) + 3) mod 2 ^ 32) /\
  (forall c, owner c = Switch -> counter c (mins st') = counter c (mins st)) /\
  exists data',
    data_json (flash st') = Some (Parsed data') /\
    forall c, data' !! key_of c = Some (counter c (mins st')).
Proof.
  intros st.
  destruct (denon_inputChanged_effect "BD" "GAME" ("GAME" +:+ CR) 5 st)
    as (_ & _ & _ & _ & _ & _ & Hscenario).
  apply (Hscenario [60001; 120002; 180003] ∅).
  - reflexivity.
  - reflexivity.
  - intros c. destruct c; simpl; lia.
  - reflexivity.
  - reflexivity.
  - unfold agree_upto. simpl. discriminate.
  - reflexivity.
Defined.

(** C8, counterexample.  With the input strings BD and GAME of the Denon
    protocol: the response G, which is neither of them, selects Switch; over
    a file that does not parse, the input change leaves the file as it is,
    so the counters are not flushed; and with the PS5 counters at
    [2 ^ 32 - 1], three minute ticks followed by a change to Switch leave
    them at 2. *)
Lemma denon_inputChanged_prefix_and_no_flush :
  (let st :=
     mkGlobals (mkCounters 5 60 60 60 60 1 2 3 4 5)
               (mkClock 21 30 14 3 2024 4)
               0 SM_SCREEN_IDLE false (mkFS (Some (Parsed ∅)) true) [] in
   "G" <> "BD" /\ "G" <> "GAME" /\
   active_input (denon_inputChanged "BD" "GAME" ("G" +:+ CR) 2 st) = Switch /\
   active_input (denon_inputChanged "BD" "GAME" ("G" +:+ CR) 2 st)
   <> NoInput) /\
  (let st :=
     mkGlobals (mkCounters 5 60 60 60 60 1 2 3 4 5)
               (mkClock 21 30 14 3 2024 4)
               0 SM_SCREEN_PLAY_PS5 false
               (mkFS (Some (Unparsable "{ps_t:5,")) true) [] in
   let st' := denon_inputChanged "BD" "GAME" ("GAME" +:+ CR) 5 st in
   data_json (flash st') = Some (Unparsable "{ps_t:5,") /\
   stored_data (flash st') = None) /\
  (let st :=
     mkGlobals (mkCounters 4294967295 4294967295 4294967295 4294967295
                           4294967295 0 0 0 0 0)
               (mkClock 21 30 14 3 2024 4)
               0 SM_SCREEN_PLAY_PS5 false (mkFS (Some (Parsed ∅)) true) [] in
   let st' :=
     denon_inputChanged "BD" "GAME" ("GAME" +:+ CR) 5
       (minutes_fired [60001; 120002; 180003] st) in
   counter Ps5Today (mins st') = 2 /\
   counter Ps5Today (mins st') <> counter Ps5Today (mins st) + 3).
Proof.
  split; [|split].
  - split; [discriminate|]. split; [discriminate|].
    split; [reflexivity|]. vm_compute. discriminate.
  - split; reflexivity.
  - split; [reflexivity|]. vm_compute. discriminate.
Qed.

(** ** Durations and the time as text *)

Lemma decimal_1 k n : 0 <= n < 10 -> decimal (S k) n = String (digit_char n) "".
Proof.
  intros Hn. simpl.
  assert ((n <? 10) = true) as -> by (apply Z.ltb_lt; lia).
  rewrite Z.mod_small by lia. reflexivity.
Qed.

Lemma decimal_2 k n : 10 <= n < 100 -> decimal (S (S k)) n = two_digits n.
Proof.
  intros Hn. change (decimal (S (S k)) n)
    with ((if n <? 10 then "" else decimal (S k) (n / 10))
            +:+ String (digit_char (n mod 10)) "").
  assert ((n <? 10) = false) as -> by (apply Z.ltb_ge; lia).
  rewrite decimal_1
    by (split; [apply Z.div_pos|apply Z.div_lt_upper_bound]; lia).
  reflexivity.
Qed.

Lemma decimal_3 k n :
  100 <= n < 1000 ->
  decimal (S (S (S k))) n
  = String (digit_char (n / 10 / 10)) (String (digit_char (n / 10 mod 10))
      (String (digit_char (n mod 10)) "")).
Proof.
  intros Hn. change (decimal (S (S (S k))) n)
    with ((if n <? 10 then "" else decimal (S (S k)) (n / 10))
            +:+ String (digit_char (n mod 10)) "").
  assert ((n <? 10) = false) as -> by (apply Z.ltb_ge; lia).
  rewrite decimal_2.
  - reflexivity.
  - split; [apply Z.div_le_lower_bound|apply Z.div_lt_upper_bound]; lia.
Qed.

Lemma decimal_4 k n :
  1000 <= n < 10000 ->
  decimal (S (S (S (S k)))) n
  = String (digit_char (n / 10 / 10 / 10))
      (String (digit_char (n / 10 / 10 mod 10))
         (String (digit_char (n / 10 mod 10))
            (String (digit_char (n mod 10)) ""))).
Proof.
  intros Hn. change (decimal (S (S (S (S k)))) n)
    with ((if n <? 10 then "" else decimal (S (S (S k))) (n / 10))
            +:+ String (digit_char (n mod 10)) "").
  assert ((n <? 10) = false) as -> by (apply Z.ltb_ge; lia).
  rewrite decimal_3.
  - reflexivity.
  - split; [apply Z.div_le_lower_bound|apply Z.div_lt_upper_bound]; lia.
Qed.

Lemma fmt_lu_2 n : 0 <= n < 100 -> fmt_lu 2 n = two_digits n.
Proof.
  intros Hn. unfold fmt_lu. destruct (Z.ltb_spec n 10).
  - rewrite decimal_1 by lia. unfold two_digits.
    rewrite Z.div_small, Z.mod_small by lia. reflexivity.
  - rewrite decimal_2 by lia. reflexivity.
Qed.

(** X1. With an hour and a minute below 100, [clock_getTimeString] is the
    hour on two digits, a colon and the minute on two digits. *)
Theorem clock_getTimeString_two_digits c :
  0 <= t_hour c < 100 -> 0 <= t_minute c < 100 ->
  clock_getTimeString c
  = two_digits (t_hour c) +:+ ":" +:+ two_digits (t_minute c).
Proof.
  intros Hh Hm. unfold clock_getTimeString, two_digits.
  destruct (Z.ltb_spec (t_hour c) 10), (Z.ltb_spec (t_minute c) 10).
  - rewrite (decimal_1 2 (t_hour c)), (decimal_1 2 (t_minute c)) by lia.
    rewrite !Z.div_small, !Z.mod_small by lia. reflexivity.
  - rewrite (decimal_1 2 (t_hour c)), (decimal_2 1 (t_minute c)) by lia.
    rewrite (Z.div_small (t_hour c)), (Z.mod_small (t_hour c)) by lia.
    reflexivity.
  - rewrite (decimal_2 1 (t_hour c)), (decimal_1 2 (t_minute c)) by lia.
    rewrite (Z.div_small (t_minute c)), (Z.mod_small (t_minute c)) by lia.
    reflexivity.
  - rewrite (decimal_2 1 (t_hour c)), (decimal_2 1 (t_minute c)) by lia.
    reflexivity.
Qed.

(** X2. Below 1000 hours [minutes_to_str] gives the hours without leading
    zero, a colon and the minutes on two digits: the three formats and the
    buffer of seven characters lose nothing. *)
Theorem minutes_to_str_exact minutes :
  0 <= minutes < 60000 ->
  minutes_to_str minutes
  = decimal 10 (minutes / 60) +:+ ":" +:+ two_digits (minutes mod 60).
Proof.
  intros Hrange. unfold minutes_to_str.
  assert (Hh : 0 <= minutes / 60 < 1000)
    by (split; [apply Z.div_pos|apply Z.div_lt_upper_bound]; lia).
  assert (Hm : 0 <= minutes mod 60 < 100)
    by (pose proof (Z.mod_pos_bound minutes 60); lia).
  rewrite (fmt_lu_2 _ Hm).
  generalize dependent (minutes mod 60). generalize dependent (minutes / 60).
  intros h Hh m Hm. unfold two_digits, fmt_lu.
  destruct (Z.ltb_spec h 10); [|destruct (Z.ltb_spec h 100)].
  - rewrite (decimal_1 9 h) by lia. reflexivity.
  - rewrite (decimal_2 8 h) by lia. reflexivity.
  - rewrite (decimal_3 7 h) by lia. reflexivity.
Qed.

Lemma minutes_to_str_exact_witness :
  minutes_to_str 754 = "12:34".
Proof. apply (minutes_to_str_exact 754). lia. Defined.

(** X3. From 1000 hours up to 9999 hours the formatted text has seven
    characters and the buffer keeps six: [minutes_to_str] gives the four
    digits of the hours, a colon and only the tens digit of the minutes. *)
Theorem minutes_to_str_truncated minutes :
  60000 <= minutes < 600000 ->
  minutes_to_str minutes
  = decimal 10 (minutes / 60) +:+ ":"
    +:+ String (digit_char (minutes mod 60 / 10)) "".
Proof.
  intros Hrange. unfold minutes_to_str.
  assert (Hh : 1000 <= minutes / 60 < 10000)
    by (split; [apply Z.div_le_lower_bound|apply Z.div_lt_upper_bound]; lia).
  assert (Hm : 0 <= minutes mod 60 < 100)
    by (pose proof (Z.mod_pos_bound minutes 60); lia).
  rewrite (fmt_lu_2 _ Hm).
  generalize dependent (minutes mod 60). generalize dependent (minutes / 60).
  intros h Hh m Hm. unfold two_digits, fmt_lu.
  assert ((h <? 10) = false) as -> by (apply Z.ltb_ge; lia).
  assert ((h <? 100) = false) as -> by (apply Z.ltb_ge; lia).
  rewrite (decimal_4 6 h) by lia. reflexivity.
Qed.

Lemma minutes_to_str_truncated_witness :
  minutes_to_str 74074 = "1234:3".
Proof. apply (minutes_to_str_truncated 74074). lia. Defined.

Lemma clock_getTimeString_two_digits_witness :
  clock_getTimeString (mkClock 6 5 1 1 2024 1) = "06:05".
Proof.
  apply (clock_getTimeString_two_digits (mkClock 6 5 1 1 2024 1)); simpl; lia.
Defined.

(** ** The touch screen *)

Lemma option_of_step p option :
  0 <= p -> option = option_of p ->
  (if p + 1 =? 1000 then 1
   else if p + 1 =? 2000 then 2
   else if p + 1 =? 3000 then 3
   else if p + 1 =? 4000 then 4
   else if p + 1 =? 6000 then 5
   else if p + 1 =? 8000 then 6
   else if p + 1 =? 10000 then 99
   else option) = option_of (p + 1).
Proof.
  intros Hp ->. unfold option_of.
  repeat match goal with
         | |- context [?a =? ?b] => destruct (Z.eqb_spec a b)
         end;
  repeat match goal with
         | |- context [?a <? ?b] => destruct (Z.ltb_spec a b)
         end;
  try reflexivity; lia.
Qed.

Lemma touch_hold_from held : forall p,
  0 <= p -> p + Z.of_nat held < 2 ^ 32 ->
  touch_hold held p (option_of p)
  = (p + Z.of_nat held, option_of (p + Z.of_nat held)).
Proof.
  induction held as [|k IH]; intros p Hp Hfit.
  - simpl. rewrite Z.add_0_r. reflexivity.
  - cbn [touch_hold]. unfold u32. rewrite Z.mod_small by lia.
    rewrite (option_of_step p (option_of p) Hp eq_refl).
    rewrite IH by lia. f_equal; [|f_equal]; lia.
Qed.

Lemma touch_hold_start held :
  Z.of_nat held < 2 ^ 32 ->
  touch_hold held 0 0 = (Z.of_nat held, option_of (Z.of_nat held)).
Proof.
  intros Hfit. apply (touch_hold_from held 0); lia.
Qed.

(** X4. The loop that times a press ends, after [held] milliseconds, with
    [pressedTime = held] and with the option of the last threshold reached:
    none below 1 s, PS5 statistics from 1 s, Switch from 2 s, all from 3 s,
    info from 4 s, restart from 6 s, reset from 8 s, exit from 10 s. *)
Theorem touch_hold_option held :
  Z.of_nat held < 2 ^ 32 ->
  touch_hold held 0 0 = (Z.of_nat held, option_of (Z.of_nat held)) /\
  (Z.of_nat held < 1000 -> snd (touch_hold held 0 0) = 0) /\
  (10000 <= Z.of_nat held -> snd (touch_hold held 0 0) = 99).
Proof.
  intros Hfit. split; [|split].
  - apply touch_hold_start. exact Hfit.
  - intros Hshort. rewrite touch_hold_start by exact Hfit.
    unfold option_of.
    assert ((Z.of_nat held <? 1000) = true) as -> by (apply Z.ltb_lt; lia).
    reflexivity.
  - intros Hlong. rewrite touch_hold_start by exact Hfit.
    unfold option_of.
    repeat match goal with
           | |- context [?a <? ?b] => destruct (Z.ltb_spec a b); try lia
           end.
    reflexivity.
Qed.

Lemma touch_hold_option_witness :
  touch_hold 4500 0 0 = (4500, 4).
Proof.
  assert (Hfit : Z.of_nat 4500 < 2 ^ 32) by lia.
  exact (proj1 (touch_hold_option 4500 Hfit)).
Defined.

(** X5. A touch while any screen other than off and idle is shown, in
    particular a play screen, only clears the interrupt flag: the counters,
    the data file and the screen are untouched, whatever the length of the
    press. *)
Theorem tft_touch_handle_ignored pressed held s :
  sm_screen (globals s) <> SM_SCREEN_OFF ->
  sm_screen (globals s) <> SM_SCREEN_IDLE ->
  exists s',
    tft_touch_handle pressed held s = Some s' /\
    globals s' = globals s /\
    tft_touchIRQ s' = false /\
    sm_timeToNextScreen s' = sm_timeToNextScreen s /\
    sm_nextScreen s' = sm_nextScreen s.
Proof.
  intros Hoff Hidle. unfold tft_touch_handle.
  destruct (tft_touchIRQ s) eqn:Hirq.
  - destruct pressed; cbn [globals].
    + assert ((sm_screen (globals s) =? SM_SCREEN_OFF) = false) as ->
        by (apply Z.eqb_neq; exact Hoff).
      assert ((sm_screen (globals s) =? SM_SCREEN_IDLE) = false) as ->
        by (apply Z.eqb_neq; exact Hidle).
      eexists. split; [reflexivity|]. repeat split.
    + eexists. split; [reflexivity|]. repeat split.
  - exists s. repeat split. exact Hirq.
Qed.

Lemma tft_touch_handle_ignored_witness :
  let s :=
    mkSketch
      (mkGlobals (mkCounters 5 60 60 60 60 1 2 3 4 5)
                 (mkClock 21 30 14 3 2024 4)
                 0 SM_SCREEN_PLAY_PS5 false
                 (mkFS (Some (Parsed ∅)) true) [])
      0 30 SM_SCREEN_IDLE (-1) true in
  exists s',
    tft_touch_handle true 4500 s = Some s' /\
    globals s' = globals s /\
    tft_touchIRQ s' = false /\
    sm_timeToNextScreen s' = sm_timeToNextScreen s /\
    sm_nextScreen s' = sm_nextScreen s.
Proof.
  intros s. apply (tft_touch_handle_ignored true 4500 s); discriminate.
Defined.

(** X6. On the off or idle screen, a press held for 8 s and less than 10 s
    resets the data: all ten counters are zero afterwards, the screen is the
    same and is refreshed; when the flash accepts writes and the data file is
    missing or parses, the record in the file holds the ten zeros.  A press
    of 6 s and less than 8 s restarts the ESP, and every other press leaves
    the counters and the data file as they are. *)
Theorem tft_touch_handle_press held s :
  tft_touchIRQ s = true ->
  sm_screen (globals s) = SM_SCREEN_OFF \/
  sm_screen (globals s) = SM_SCREEN_IDLE ->
  Z.of_nat held < 2 ^ 32 ->
  let h := Z.of_nat held in
  (8000 <= h < 10000 ->
   exists s',
     tft_touch_handle true held s = Some s' /\
     mins (globals s') = zero_counters /\
     sm_screen (globals s') = sm_screen (globals s) /\
     sm_screen_forceRefresh (globals s') = true /\
     (writable (flash (globals s)) = true ->
      (exists data, stored_data (flash (globals s)) = Some data) ->
      in_sync (globals s'))) /\
  (6000 <= h < 8000 -> tft_touch_handle true held s = None) /\
  (h < 6000 \/ 10000 <= h ->
   exists s',
     tft_touch_handle true held s = Some s' /\
     mins (globals s') = mins (globals s) /\
     flash (globals s') = flash (globals s) /\
     sm_screen_forceRefresh (globals s') = true).
Proof.
  intros Hirq Hscreen Hfit h. subst h.
  assert (Hidle : (sm_screen (globals s) =? SM_SCREEN_OFF)
                  || (sm_screen (globals s) =? SM_SCREEN_IDLE) = true).
  { apply orb_true_iff.
    destruct Hscreen as [H|H]; [left|right]; apply Z.eqb_eq; exact H. }
  unfold tft_touch_handle. rewrite Hirq. cbn [globals]. rewrite Hidle.
  rewrite (touch_hold_start held Hfit). cbn [snd]. unfold option_of.
  split; [|split].
  - intros Hh.
    repeat match goal with
           | |- context [?a <? ?b] =>
               destruct (Z.ltb_spec a b); try lia
           end.
    cbn [Z.eqb Pos.eqb].
    eexists. split; [reflexivity|]. cbn [globals with_globals].
    unfold fs_reset_data_file. cbn [mins with_screen sm_screen
                                         sm_screen_forceRefresh].
    rewrite fs_save_data_file_mins, fs_save_data_file_screen.
    split; [reflexivity|]. split; [reflexivity|]. split; [reflexivity|].
    intros Hw [data Hd]. unfold in_sync. cbn [flash with_screen mins].
    rewrite fs_save_data_file_mins.
    rewrite (fs_save_data_file_writes (with_mins zero_counters (globals s))
               data Hw Hd).
    eexists. split; [reflexivity|]. intros c. apply update_data_key.
  - intros Hh.
    repeat match goal with
           | |- context [?a <? ?b] =>
               destruct (Z.ltb_spec a b); try lia
           end.
    reflexivity.
  - intros Hh.
    repeat match goal with
           | |- context [?a <? ?b] =>
               destruct (Z.ltb_spec a b); try lia
           end;
      cbn [Z.eqb Pos.eqb]; eexists; (split; [reflexivity|]);
      repeat split.
Qed.

Lemma tft_touch_handle_press_witness :
  let s :=
    mkSketch
      (mkGlobals (mkCounters 5 60 60 60 60 1 2 3 4 5)
                 (mkClock 21 30 14 3 2024 4)
                 0 SM_SCREEN_IDLE false
                 (mkFS (Some (Parsed ∅)) true) [])
      0 30 SM_SCREEN_IDLE (-1) true in
  exists s',
    tft_touch_handle true (Z.to_nat 8500) s = Some s' /\
    mins (globals s') = zero_counters /\
    in_sync (globals s').
Proof.
  intros s.
  assert (Hfit : Z.of_nat (Z.to_nat 8500) < 2 ^ 32)
    by (rewrite Z2Nat.id by lia; lia).
  destruct (tft_touch_handle_press (Z.to_nat 8500) s eq_refl
              (or_intror eq_refl) Hfit) as [Hreset _].
  destruct Hreset as (s' & Hs' & Hzero & _ & _ & Hsync).
  - rewrite Z2Nat.id by lia. lia.
  - exists s'. split; [exact Hs'|]. split; [exact Hzero|].
    apply Hsync; [reflexivity|]. exists ∅. reflexivity.
Defined.

(** ** The display *)

(** X7. Armed with [k >= 0] seconds, [tft_handle_nextScreen] changes only
    its counter during [k] calls; the call after that shows the next screen,
    asks for a refresh and parks the counter at -1, where further calls
    change nothing. *)
Theorem tft_handle_nextScreen_countdown k : forall s,
  sm_timeToNextScreen s = Z.of_nat k ->
  Nat.iter k tft_handle_nextScreen s = with_next (sm_nextScreen s) 0 s /\
  Nat.iter (S k) tft_handle_nextScreen s
  = with_globals (with_screen (sm_nextScreen s) true (globals s))
                 (with_next (sm_nextScreen s) (-1) s) /\
  tft_handle_nextScreen (Nat.iter (S k) tft_handle_nextScreen s)
  = Nat.iter (S k) tft_handle_nextScreen s.
Proof.
  assert (Hzero : forall s, sm_timeToNextScreen s = 0 ->
            tft_handle_nextScreen s
            = with_globals (with_screen (sm_nextScreen s) true (globals s))
                           (with_next (sm_nextScreen s) (-1) s)).
  { intros s H. unfold tft_handle_nextScreen. rewrite H. reflexivity. }
  assert (Hiter : forall n s, Nat.iter (S n) tft_handle_nextScreen s
                              = Nat.iter n tft_handle_nextScreen
                                  (tft_handle_nextScreen s)).
  { intros n s. induction n as [|n IHn]; [reflexivity|].
    change (Nat.iter (S (S n)) tft_handle_nextScreen s)
      with (tft_handle_nextScreen (Nat.iter (S n) tft_handle_nextScreen s)).
    rewrite IHn. reflexivity. }
  assert (Hdown : forall k s, sm_timeToNextScreen s = Z.of_nat k ->
            Nat.iter k tft_handle_nextScreen s
            = with_next (sm_nextScreen s) 0 s).
  { clear k. induction k as [|k IH]; intros s Hk.
    - simpl. destruct s. simpl in Hk. subst. reflexivity.
    - rewrite Hiter.
      assert (Hstep : tft_handle_nextScreen s
                      = with_next (sm_nextScreen s) (Z.of_nat k) s).
      { unfold tft_handle_nextScreen. rewrite Hk.
        assert ((0 <? Z.of_nat (S k)) = true) as -> by (apply Z.ltb_lt; lia).
        f_equal. lia. }
      rewrite Hstep, IH by reflexivity. reflexivity. }
  intros s Hk.
  assert (Hlast : Nat.iter (S k) tft_handle_nextScreen s
                  = with_globals
                      (with_screen (sm_nextScreen s) true (globals s))
                      (with_next (sm_nextScreen s) (-1) s)).
  { change (Nat.iter (S k) tft_handle_nextScreen s)
      with (tft_handle_nextScreen (Nat.iter k tft_handle_nextScreen s)).
    rewrite (Hdown k s Hk), Hzero by reflexivity. reflexivity. }
  split; [exact (Hdown k s Hk)|]. split; [exact Hlast|].
  rewrite Hlast. reflexivity.
Qed.

Lemma tft_handle_nextScreen_countdown_witness :
  let s :=
    mkSketch (with_screen SM_SCREEN_STATS_PS5 false (boot (mkFS None true)))
             0 0 SM_SCREEN_IDLE 5 false in
  sm_screen (globals (Nat.iter 5 tft_handle_nextScreen s))
  = SM_SCREEN_STATS_PS5 /\
  sm_screen (globals (Nat.iter 6 tft_handle_nextScreen s)) = SM_SCREEN_IDLE.
Proof.
  intros s.
  destruct (tft_handle_nextScreen_countdown 5 s eq_refl)
    as (Hdown & Hlast & _).
  rewrite Hdown, Hlast. split; reflexivity.
Defined.

(** One second of an armed countdown: the minute has not changed and no
    refresh is asked for. *)
Lemma tft_handle_second now s :
  sm_screen_forceRefresh (globals s) = false ->
  t_minute_last s = t_minute (clock (globals s)) ->
  0 < sm_timeToNextScreen s ->
  everySecond_tick s < now -> 0 <= now -> now + 1000 < 2 ^ 32 ->
  tft_handle now s
  = mkSketch (globals s) (now + 1000) (t_minute_last s) (sm_nextScreen s)
             (sm_timeToNextScreen s - 1) (tft_touchIRQ s).
Proof.
  intros Hforce Hminute Htimer Hdue H0 Hfit.
  destruct s as [g tick tml next timer irq].
  cbn in Hforce, Hminute, Htimer, Hdue.
  unfold tft_handle, tft_handle_nextScreen, with_next. simpl.
  rewrite Hforce.
  assert ((tick <? now) = true) as -> by (apply Z.ltb_lt; lia).
  simpl.
  assert ((0 <? timer) = true) as -> by (apply Z.ltb_lt; lia).
  simpl. rewrite Hforce, Hminute, Z.eqb_refl. simpl. rewrite Hforce.
  unfold u32. rewrite Z.mod_small by lia. reflexivity.
Qed.

(** The second on which the countdown expires, towards the idle screen. *)
Lemma tft_handle_expiry now s :
  sm_screen_forceRefresh (globals s) = false ->
  sm_timeToNextScreen s = 0 ->
  sm_nextScreen s = SM_SCREEN_IDLE ->
  everySecond_tick s < now -> 0 <= now -> now + 1000 < 2 ^ 32 ->
  tft_handle now s
  = mkSketch (with_screen SM_SCREEN_IDLE false (globals s)) (now + 1000)
             (t_minute_last s) SM_SCREEN_IDLE (-1) (tft_touchIRQ s).
Proof.
  intros Hforce Htimer Hnext Hdue H0 Hfit.
  destruct s as [g tick tml next timer irq].
  cbn in Hforce, Htimer, Hnext, Hdue. subst timer next.
  unfold tft_handle, tft_handle_nextScreen, with_next, with_globals,
    draw_screen. simpl.
  rewrite Hforce.
  assert ((tick <? now) = true) as -> by (apply Z.ltb_lt; lia).
  simpl. rewrite orb_true_r. simpl.
  unfold u32. rewrite Z.mod_small by lia. reflexivity.
Qed.

(** A forced refresh of a statistics screen arms the return to idle. *)
Lemma tft_handle_forced_stats now s :
  sm_screen_forceRefresh (globals s) = true ->
  sm_screen (globals s) = SM_SCREEN_STATS_ALL \/
  sm_screen (globals s) = SM_SCREEN_STATS_PS5 \/
  sm_screen (globals s) = SM_SCREEN_STATS_SWITCH ->
  tft_handle now s
  = mkSketch (with_screen (sm_screen (globals s)) false (globals s))
             (everySecond_tick s) (t_minute_last s) SM_SCREEN_IDLE 5
             (tft_touchIRQ s).
Proof.
  intros Hforce Hscreen.
  destruct s as [g tick tml next timer irq].
  destruct g as [m c t scr force fl sent]. cbn in Hforce, Hscreen.
  subst force.
  unfold tft_handle, draw_screen, with_next, with_globals, with_screen.
  simpl. rewrite !orb_true_r. simpl.
  destruct Hscreen as [H|[H|H]]; subst scr; reflexivity.
Qed.

Lemma seconds_apart_firstn k : forall nows tick,
  seconds_apart tick nows -> seconds_apart tick (firstn k nows).
Proof.
  induction k as [|k IH]; intros nows tick H; [exact I|].
  destruct nows as [|now rest]; [exact I|].
  simpl in *. destruct H as (H1 & H2 & H3 & H4). auto.
Qed.

(** While the countdown lasts, the calls of [tft_handle] keep the globals of
    the accounting. *)
Lemma tft_handles_running nows : forall s,
  sm_screen_forceRefresh (globals s) = false ->
  t_minute_last s = t_minute (clock (globals s)) ->
  Z.of_nat (length nows) <= sm_timeToNextScreen s ->
  seconds_apart (everySecond_tick s) nows ->
  globals (tft_handles nows s) = globals s.
Proof.
  induction nows as [|now rest IH]; intros s Hforce Hminute Htimer Hapart;
    [reflexivity|].
  simpl in Hapart. destruct Hapart as (Hdue & H0 & Hfit & Hrest).
  change (tft_handles (now :: rest) s)
    with (tft_handles rest (tft_handle now s)).
  assert (Hpos : 0 < sm_timeToNextScreen s)
    by (change (length (now :: rest)) with (S (length rest)) in Htimer; lia).
  rewrite (tft_handle_second now s Hforce Hminute Hpos Hdue H0 Hfit).
  rewrite IH; simpl; try assumption.
  - reflexivity.
  - change (length (now :: rest)) with (S (length rest)) in Htimer. lia.
Qed.

(** The call after the countdown shows the idle screen. *)
Lemma tft_handles_return nows : forall s,
  nows <> [] ->
  sm_screen_forceRefresh (globals s) = false ->
  t_minute_last s = t_minute (clock (globals s)) ->
  sm_nextScreen s = SM_SCREEN_IDLE ->
  sm_timeToNextScreen s = Z.of_nat (length nows) - 1 ->
  seconds_apart (everySecond_tick s) nows ->
  globals (tft_handles nows s) = with_screen SM_SCREEN_IDLE false (globals s) /\
  sm_timeToNextScreen (tft_handles nows s) = -1.
Proof.
  induction nows as [|now rest IH];
    intros s Hne Hforce Hminute Hnext Htimer Hapart; [contradiction|].
  simpl in Hapart. destruct Hapart as (Hdue & H0 & Hfit & Hrest).
  change (tft_handles (now :: rest) s)
    with (tft_handles rest (tft_handle now s)).
  change (length (now :: rest)) with (S (length rest)) in Htimer.
  destruct rest as [|now' rest'].
  - simpl in Htimer.
    rewrite (tft_handle_expiry now s Hforce Htimer Hnext Hdue H0 Hfit).
    split; reflexivity.
  - assert (Hpos : 0 < sm_timeToNextScreen s)
      by (change (length (now' :: rest')) with (S (length rest')) in Htimer;
          lia).
    rewrite (tft_handle_second now s Hforce Hminute Hpos Hdue H0 Hfit).
    set (s1 := mkSketch _ _ _ _ _ _).
    destruct (IH s1) as [Hg Ht];
      [discriminate | exact Hforce | exact Hminute | exact Hnext
      | unfold s1; simpl sm_timeToNextScreen; lia | exact Hrest |].
    split; [exact Hg | exact Ht].
Qed.

(** X8. A statistics screen put up with a forced refresh, as the power-off
    callback and the touch screen do, is armed for 5 seconds by the next
    call of [tft_handle]: while the minute shown is the current one, it stays
    during the next five calls that are a second apart and the sixth shows
    the idle screen; the counters are not touched. *)
Theorem tft_handle_stats_returns_to_idle now nows s :
  sm_screen_forceRefresh (globals s) = true ->
  sm_screen (globals s) = SM_SCREEN_STATS_ALL \/
  sm_screen (globals s) = SM_SCREEN_STATS_PS5 \/
  sm_screen (globals s) = SM_SCREEN_STATS_SWITCH ->
  t_minute_last s = t_minute (clock (globals s)) ->
  length nows = 6%nat ->
  seconds_apart (everySecond_tick s) nows ->
  let armed := tft_handle now s in
  sm_timeToNextScreen armed = 5 /\
  sm_screen (globals (tft_handles (firstn 5 nows) armed))
  = sm_screen (globals s) /\
  sm_screen (globals (tft_handles nows armed)) = SM_SCREEN_IDLE /\
  sm_screen_forceRefresh (globals (tft_handles nows armed)) = false /\
  mins (globals (tft_handles nows armed)) = mins (globals s) /\
  flash (globals (tft_handles nows armed)) = flash (globals s).
Proof.
  intros Hforce Hscreen Hminute Hlen Hapart armed. subst armed.
  rewrite (tft_handle_forced_stats now s Hforce Hscreen).
  set (armed := mkSketch _ _ _ _ _ _).
  split; [reflexivity|]. split.
  - rewrite (tft_handles_running (firstn 5 nows) armed).
    + reflexivity.
    + reflexivity.
    + exact Hminute.
    + rewrite length_firstn, Hlen. simpl. lia.
    + apply seconds_apart_firstn. exact Hapart.
  - destruct (tft_handles_return nows armed) as [Hg _].
    + intros ->. discriminate Hlen.
    + reflexivity.
    + exact Hminute.
    + reflexivity.
    + rewrite Hlen. reflexivity.
    + exact Hapart.
    + rewrite Hg. repeat split.
Qed.

Lemma tft_handle_stats_returns_to_idle_witness :
  let s :=
    mkSketch
      (mkGlobals (mkCounters 5 60 60 60 60 1 2 3 4 5)
                 (mkClock 21 30 14 3 2024 4)
                 0 SM_SCREEN_STATS_PS5 true
                 (mkFS (Some (Parsed ∅)) true) [])
      7000 30 SM_SCREEN_IDLE (-1) false in
  let nows := [8001; 9002; 10003; 11004; 12005; 13006] in
  sm_screen (globals (tft_handles (firstn 5 nows) (tft_handle 7500 s)))
  = SM_SCREEN_STATS_PS5 /\
  sm_screen (globals (tft_handles nows (tft_handle 7500 s))) = SM_SCREEN_IDLE.
Proof.
  intros s nows.
  destruct (tft_handle_stats_returns_to_idle 7500 nows s)
    as (_ & Hstay & Hidle & _).
  - reflexivity.
  - right. left. reflexivity.
  - reflexivity.
  - reflexivity.
  - simpl. lia.
  - split; [exact Hstay | exact Hidle].
Defined.

(** ** Saving and loading together *)

Lemma key_cases (k : string) :
  (exists c, k = key_of c) \/ (forall c, k <> key_of c).
Proof.
  destruct (decide (k = key_of Ps5Today)); [left; eauto|].
  destruct (decide (k = key_of Ps5Week)); [left; eauto|].
  destruct (decide (k = key_of Ps5Month)); [left; eauto|].
  destruct (decide (k = key_of Ps5Year)); [left; eauto|].
  destruct (decide (k = key_of Ps5Sum)); [left; eauto|].
  destruct (decide (k = key_of SwitchToday)); [left; eauto|].
  destruct (decide (k = key_of SwitchWeek)); [left; eauto|].
  destruct (decide (k = key_of SwitchMonth)); [left; eauto|].
  destruct (decide (k = key_of SwitchYear)); [left; eauto|].
  destruct (decide (k = key_of SwitchSum)); [left; eauto|].
  right. intros c. destruct c; assumption.
Qed.

Lemma update_data_idempotent m data :
  update_data m (update_data m data) = update_data m data.
Proof.
  apply map_eq. intros k. destruct (key_cases k) as [[c ->]|Hk].
  - rewrite !update_data_key. reflexivity.
  - rewrite (update_data_other m (update_data m data) k Hk). reflexivity.
Qed.

(** X9. Saving twice in a row leaves the globals and the data file as
    saving once does, whatever the state of the file and of the flash. *)
Theorem fs_save_data_file_idempotent st :
  fs_save_data_file (fs_save_data_file st) = fs_save_data_file st.
Proof.
  destruct st as [m c t scr force [file w] sent].
  destruct file as [[data|raw]|], w; try reflexivity.
  unfold fs_save_data_file, LittleFS_open_existing, save_opened,
    File_rewrite, with_flash. simpl.
  rewrite update_data_idempotent. reflexivity.
Qed.

Lemma counters_ext m1 m2 :
  (forall c, counter c m1 = counter c m2) -> m1 = m2.
Proof.
  intros H.
  pose proof (H Ps5Today). pose proof (H Ps5Week). pose proof (H Ps5Month).
  pose proof (H Ps5Year). pose proof (H Ps5Sum). pose proof (H SwitchToday).
  pose proof (H SwitchWeek). pose proof (H SwitchMonth).
  pose proof (H SwitchYear). pose proof (H SwitchSum).
  destruct m1, m2. simpl in *. congruence.
Qed.

(** ** The record and the memory *)

(** The counters after [time_handle]: those of the first block, reset when
    the session ends. *)
Lemma time_handle_mins now st :
  mins (time_handle now st)
  = if session_ends (clock st)
    then reset_periods (clock st) (mins (fst (minute_tick now st false)))
    else mins (fst (minute_tick now st false)).
Proof.
  unfold time_handle.
  pose proof (minute_tick_clock now st false) as Hc.
  destruct (minute_tick now st false) as [st1 d1]. simpl in Hc |- *.
  unfold day_rollover. rewrite Hc.
  destruct (session_ends (clock st)).
  - rewrite fs_save_data_file_mins. reflexivity.
  - destruct d1; [apply fs_save_data_file_mins|reflexivity].
Qed.

Lemma fs_save_data_file_in_sync st data :
  writable (flash st) = true ->
  stored_data (flash st) = Some data ->
  in_sync (fs_save_data_file st) /\
  writable (flash (fs_save_data_file st)) = true.
Proof.
  intros Hw Hd. unfold in_sync.
  rewrite (fs_save_data_file_writes st data Hw Hd), fs_save_data_file_mins.
  split; [|reflexivity].
  eexists. split; [reflexivity|]. intros c. apply update_data_key.
Qed.

Lemma in_sync_stored st :
  in_sync st -> exists data, stored_data (flash st) = Some data.
Proof.
  intros (data & Hf & _). exists data. unfold stored_data. rewrite Hf.
  reflexivity.
Qed.

Lemma with_screen_in_sync s refresh st :
  in_sync (with_screen s refresh st) <-> in_sync st.
Proof. unfold in_sync. simpl. reflexivity. Qed.

(** Loading a record that is in sync, with counters that fit [int32_t],
    changes nothing. *)
Lemma fs_load_data_file_in_sync st :
  in_sync st ->
  (forall c, 0 <= counter c (mins st) <= INT32_MAX) ->
  fst (fs_load_data_file st) = st.
Proof.
  intros (data & Hf & Hkeys) Hrange.
  unfold fs_load_data_file, LittleFS_open_existing. rewrite Hf. simpl.
  assert (Hm : mins (load_content (Parsed data) st) = mins st).
  { apply counters_ext. intros c. rewrite load_content_counter.
    unfold read_key. rewrite Hkeys. apply u32_as_int32. apply Hrange. }
  destruct st as [m c t scr force fl sent]. simpl in Hm.
  unfold load_content, with_mins in *. simpl in *. rewrite Hm. reflexivity.
Qed.

(** X12. The callbacks of the receiver keep the record in sync: an input
    change, and a power change under any response once the counters fit
    [int32_t], leave a record that holds the counters of the memory, on a
    flash that still accepts writes. *)
Theorem denon_callbacks_keep_in_sync
  ON OFF INPUT_SOURCE BLURAY_DISC GAME response len st :
  writable (flash st) = true -> in_sync st ->
  in_sync (denon_inputChanged BLURAY_DISC GAME response len st) /\
  writable (flash (denon_inputChanged BLURAY_DISC GAME response len st))
  = true /\
  ((forall c, 0 <= counter c (mins st) <= INT32_MAX) ->
   in_sync (denon_powerChanged ON OFF INPUT_SOURCE response len st) /\
   writable (flash (denon_powerChanged ON OFF INPUT_SOURCE response len st))
   = true).
Proof.
  intros Hw Hsync.
  destruct (in_sync_stored st Hsync) as [data Hd].
  destruct (fs_save_data_file_in_sync st data Hw Hd) as [Hs Hw'].
  split; [|split].
  - unfold denon_inputChanged.
    destruct (strncmp_is_0 response (AVR_INPUT_PS5 BLURAY_DISC)
                (u32 (len - 1)));
      [|destruct (strncmp_is_0 response (AVR_INPUT_SWITCH GAME)
                    (u32 (len - 1)))];
      apply with_screen_in_sync; exact Hs.
  - rewrite denon_inputChanged_flash. exact Hw'.
  - intros Hrange. unfold denon_powerChanged.
    destruct (strncmp_is_0 response ON (u32 (len - 1))).
    + rewrite (fs_load_data_file_in_sync st Hsync Hrange).
      split; [exact Hsync | exact Hw].
    + destruct (strncmp_is_0 response OFF (u32 (len - 1)));
        [|split; assumption].
      destruct (sm_screen (fs_save_data_file st) =? SM_SCREEN_PLAY_PS5);
        [|destruct (sm_screen (fs_save_data_file st)
                    =? SM_SCREEN_PLAY_SWITCH)];
        (split; [apply with_screen_in_sync; exact Hs | exact Hw']).
Qed.

Lemma denon_callbacks_keep_in_sync_witness :
  let st :=
    mkGlobals (mkCounters 5 60 60 60 60 1 2 3 4 5) (mkClock 21 30 14 3 2024 4)
              0 SM_SCREEN_PLAY_PS5 false
              (mkFS (Some (Parsed (update_data
                                     (mkCounters 5 60 60 60 60 1 2 3 4 5) ∅)))
                    true) [] in
  in_sync (denon_inputChanged "BD" "GAME" ("GAME" +:+ CR) 5 st) /\
  in_sync (denon_powerChanged "ON" "OFF" "SI" ("OFF" +:+ CR) 4 st).
Proof.
  intros st.
  destruct (denon_callbacks_keep_in_sync "ON" "OFF" "SI" "BD" "GAME"
              ("GAME" +:+ CR) 5 st) as (Hinput & _ & _).
  - reflexivity.
  - eexists. split; [reflexivity|]. intros c. apply update_data_key.
  - destruct (denon_callbacks_keep_in_sync "ON" "OFF" "SI" "BD" "GAME"
                ("OFF" +:+ CR) 4 st) as (_ & _ & Hpower).
    + reflexivity.
    + eexists. split; [reflexivity|]. intros c. apply update_data_key.
    + split; [exact Hinput|]. apply Hpower.
      intros c. unfold INT32_MAX. destruct c; simpl; lia.
Defined.

(** ** When [time_handle] counts and writes *)

(** X14. Outside the session-end minute, a call of [time_handle] for which
    the minute tick is not due, or which finds no play screen, changes
    neither the counters nor the data file; when the tick is not due it
    changes nothing at all. *)
Theorem time_handle_idle now st :
  session_ends (clock st) = false ->
  (now <= everyMinute_tick st -> time_handle now st = st) /\
  (active_input st = NoInput ->
   mins (time_handle now st) = mins st /\
   flash (time_handle now st) = flash st).
Proof.
  intros Hend. split.
  - intros Hdue. unfold time_handle, minute_tick.
    assert ((everyMinute_tick st <? now) = false) as ->
      by (apply Z.ltb_ge; exact Hdue).
    unfold day_rollover. rewrite Hend. reflexivity.
  - intros Hnone. unfold active_input in Hnone.
    unfold time_handle, minute_tick, minute_fired, count_minute. simpl.
    destruct (everyMinute_tick st <? now).
    + destruct (sm_screen st =? SM_SCREEN_PLAY_PS5); [discriminate|].
      destruct (sm_screen st =? SM_SCREEN_PLAY_SWITCH); [discriminate|].
      unfold day_rollover. simpl. rewrite Hend. split; reflexivity.
    + unfold day_rollover. rewrite Hend. split; reflexivity.
Qed.

Lemma time_handle_idle_witness :
  let st :=
    mkGlobals (mkCounters 5 60 60 60 60 1 2 3 4 5) (mkClock 21 30 14 3 2024 4)
              60000 SM_SCREEN_STATS_PS5 false
              (mkFS (Some (Unparsable "{ps_t:5,")) true) [] in
  time_handle 59000 st = st /\ mins (time_handle 61000 st) = mins st.
Proof.
  intros st.
  destruct (time_handle_idle 59000 st eq_refl) as [Hnot_due _].
  destruct (time_handle_idle 61000 st eq_refl) as [_ Hnone].
  split.
  - apply Hnot_due. simpl. lia.
  - apply Hnone. reflexivity.
Defined.

(** X15. After the minute tick has fired at a reading [now] of [millis()]
    that is at least a minute away from the wrap-around, it does not fire
    again at any reading up to [now + 60000]: the first block of
    [time_handle] then leaves the globals alone. *)
Theorem minute_tick_once_a_minute now now' st doSave doSave' :
  everyMinute_tick st < now ->
  0 <= now -> now + 60000 < 2 ^ 32 ->
  now' <= now + 60000 ->
  let st1 := fst (minute_tick now st doSave) in
  everyMinute_tick st1 = now + 60000 /\
  minute_tick now' st1 doSave' = (st1, doSave').
Proof.
  intros Hdue H0 Hfit Hnext st1.
  assert (Htick : everyMinute_tick st1 = now + 60000).
  { subst st1. unfold minute_tick, minute_fired, count_minute. simpl.
    assert ((everyMinute_tick st <? now) = true) as ->
      by (apply Z.ltb_lt; exact Hdue).
    destruct (sm_screen st =? SM_SCREEN_PLAY_PS5);
      [|destruct (sm_screen st =? SM_SCREEN_PLAY_SWITCH)]; simpl;
      unfold u32; apply Z.mod_small; lia. }
  split; [exact Htick|].
  unfold minute_tick. rewrite Htick.
  assert ((now + 60000 <? now') = false) as -> by (apply Z.ltb_ge; lia).
  reflexivity.
Qed.

Lemma minute_tick_once_a_minute_witness :
  let st :=
    mkGlobals (mkCounters 5 60 60 60 60 1 2 3 4 5) (mkClock 21 30 14 3 2024 4)
              60000 SM_SCREEN_PLAY_PS5 false
              (mkFS (Some (Parsed ∅)) true) [] in
  let st1 := fst (minute_tick 60001 st false) in
  everyMinute_tick st1 = 60001 + 60000 /\
  minute_tick 100000 st1 false = (st1, false).
Proof.
  intros st.
  apply (minute_tick_once_a_minute 60001 100000 st false false); simpl; lia.
Defined.

(** X16. When the minute tick fires at a reading [now] of [millis()] within
    the last minute before the wrap-around of [uint32_t], the next tick
    [now + 60000] wraps below [now]: the tick fires again at every later
    reading before the wrap-around, and a play screen counts one more minute
    at each of these calls. *)
Theorem minute_tick_near_wrap now now' st doSave doSave' c :
  everyMinute_tick st < now ->
  2 ^ 32 - 60000 <= now < 2 ^ 32 ->
  now <= now' ->
  let st1 := fst (minute_tick now st doSave) in
  everyMinute_tick st1 = now + 60000 - 2 ^ 32 /\
  minute_tick now' st1 doSave' = minute_fired now' st1 doSave' /\
  (owner c = active_input st ->
   counter c (mins (fst (minute_tick now' st1 doSave')))
   = u32 (u32 (counter c (mins st) + 1) + 1)).
Proof.
  intros Hdue Hnear Hlater st1.
  assert (Hst1 : st1 = fst (minute_fired now st doSave)).
  { subst st1. unfold minute_tick.
    assert ((everyMinute_tick st <? now) = true) as ->
      by (apply Z.ltb_lt; exact Hdue).
    reflexivity. }
  assert (Htick : everyMinute_tick st1 = now + 60000 - 2 ^ 32).
  { rewrite Hst1. unfold minute_fired, count_minute. simpl.
    assert (Hu : u32 (now + 60000) = now + 60000 - 2 ^ 32).
    { unfold u32. symmetry. apply (Z.mod_unique _ _ 1); lia. }
    destruct (sm_screen st =? SM_SCREEN_PLAY_PS5);
      [|destruct (sm_screen st =? SM_SCREEN_PLAY_SWITCH)]; simpl; exact Hu. }
  assert (Hfires : minute_tick now' st1 doSave' = minute_fired now' st1 doSave').
  { unfold minute_tick. rewrite Htick.
    assert ((now + 60000 - 2 ^ 32 <? now') = true) as ->
      by (apply Z.ltb_lt; lia).
    reflexivity. }
  split; [exact Htick|]. split; [exact Hfires|].
  intros Hown. rewrite Hfires.
  rewrite (minute_fired_owner now' st1 doSave' c)
    by (rewrite Hst1, minute_fired_active; exact Hown).
  rewrite Hst1, (minute_fired_owner now st doSave c Hown). reflexivity.
Qed.

Lemma minute_tick_near_wrap_witness :
  let st :=
    mkGlobals (mkCounters 5 60 60 60 60 1 2 3 4 5) (mkClock 21 30 14 3 2024 4)
              4294900000 SM_SCREEN_PLAY_PS5 false
              (mkFS (Some (Parsed ∅)) true) [] in
  let st1 := fst (minute_tick 4294910000 st false) in
  everyMinute_tick st1 = 2704 /\
  counter Ps5Today (mins (fst (minute_tick 4294910001 st1 false))) = 7.
Proof.
  intros st.
  destruct (minute_tick_near_wrap 4294910000 4294910001 st false false
              Ps5Today) as (Htick & _ & Hcount); simpl; try lia.
  split; [exact Htick|]. apply Hcount. reflexivity.
Defined.

(** X21. A minute counted during the session-end minute is added to the sum
    counter of the active console and not to its today counter, which is
    zero after the call. *)
Theorem time_handle_minute_at_session_end now st :
  session_ends (clock st) = true ->
  everyMinute_tick st < now ->
  let st' := time_handle now st in
  (active_input st = PS5 ->
   time_ps5_today_mins (mins st') = 0 /\
   time_ps5_sum_mins (mins st') = u32 (time_ps5_sum_mins (mins st) + 1)) /\
  (active_input st = Switch ->
   time_switch_today_mins (mins st') = 0 /\
   time_switch_sum_mins (mins st')
   = u32 (time_switch_sum_mins (mins st) + 1)).
Proof.
  intros Hend Hdue st'. subst st'. rewrite time_handle_mins, Hend.
  rewrite reset_periods_eq. unfold minute_tick.
  assert ((everyMinute_tick st <? now) = true) as ->
    by (apply Z.ltb_lt; exact Hdue).
  split; intros Hact; (split; [reflexivity|]).
  - exact (minute_fired_owner now st false Ps5Sum (eq_sym Hact)).
  - exact (minute_fired_owner now st false SwitchSum (eq_sym Hact)).
Qed.

Lemma time_handle_minute_at_session_end_witness :
  let st :=
    mkGlobals (mkCounters 5 60 60 60 60 1 2 3 4 5) (mkClock 6 0 14 3 2024 4)
              60000 SM_SCREEN_PLAY_PS5 false
              (mkFS (Some (Parsed ∅)) true) [] in
  time_ps5_today_mins (mins (time_handle 60001 st)) = 0 /\
  time_ps5_sum_mins (mins (time_handle 60001 st)) = 61.
Proof.
  intros st.
  destruct (time_handle_minute_at_session_end 60001 st) as [Hps5 _].
  - reflexivity.
  - simpl. lia.
  - apply Hps5. reflexivity.
Defined.

(** ** The receiver goes off or away *)

(** X17. On a power-off message, [denon_powerChanged] saves, shows the
    statistics of the console that was playing, or the idle screen when none
    was, and asks for a refresh.  The counters are unchanged, no input is
    active any more, and minute ticks that follow change no counter. *)
Theorem denon_powerChanged_off ON OFF INPUT_SOURCE response len st :
  strncmp_is_0 response ON (u32 (len - 1)) = false ->
  strncmp_is_0 response OFF (u32 (len - 1)) = true ->
  let st' := denon_powerChanged ON OFF INPUT_SOURCE response len st in
  sm_screen st'
  = match active_input st with
    | PS5 => SM_SCREEN_STATS_PS5
    | Switch => SM_SCREEN_STATS_SWITCH
    | NoInput => SM_SCREEN_IDLE
    end /\
  sm_screen_forceRefresh st' = true /\
  mins st' = mins st /\
  flash st' = flash (fs_save_data_file st) /\
  active_input st' = NoInput /\
  (forall nows, mins (minutes_fired nows st') = mins st).
Proof.
  intros Hon Hoff st'. subst st'. unfold denon_powerChanged.
  rewrite Hon, Hoff. rewrite fs_save_data_file_screen. unfold active_input.
  assert (Hquiet : forall s, active_input s = NoInput ->
                   forall nows, mins (minutes_fired nows s) = mins s).
  { intros s Hs nows. apply counters_ext. intros c.
    apply minutes_fired_other. rewrite Hs. destruct c; discriminate. }
  destruct (sm_screen st =? SM_SCREEN_PLAY_PS5) eqn:Eps;
    [|destruct (sm_screen st =? SM_SCREEN_PLAY_SWITCH) eqn:Esw];
    simpl; rewrite ?fs_save_data_file_mins;
    (repeat split;
     [intros nows; rewrite Hquiet by reflexivity;
      simpl; apply fs_save_data_file_mins]).
Qed.

Lemma denon_powerChanged_off_witness :
  let st :=
    mkGlobals (mkCounters 5 60 60 60 60 1 2 3 4 5) (mkClock 21 30 14 3 2024 4)
              0 SM_SCREEN_PLAY_SWITCH false (mkFS None true) [] in
  let st' := denon_powerChanged "ON" "OFF" "SI" ("OFF" +:+ CR) 4 st in
  sm_screen st' = SM_SCREEN_STATS_SWITCH /\
  mins (minutes_fired [60001; 120002] st') = mins st.
Proof.
  intros st.
  destruct (denon_powerChanged_off "ON" "OFF" "SI" ("OFF" +:+ CR) 4 st)
    as (Hscreen & _ & _ & _ & _ & Hquiet).
  - reflexivity.
  - reflexivity.
  - split; [exact Hscreen | apply Hquiet].
Defined.

(** X18. When the connection to the receiver is lost or reports an error,
    the idle screen is shown and refreshed; nothing is saved, the counters
    and the data file stay as they are, and minute ticks that follow change
    no counter. *)
Theorem denon_connection_lost st nows :
  let after (st' : Globals) :=
    sm_screen st' = SM_SCREEN_IDLE /\
    sm_screen_forceRefresh st' = true /\
    mins st' = mins st /\ flash st' = flash st /\
    mins (minutes_fired nows st') = mins st in
  after (denon_disconnected st) /\ after (denon_conError st).
Proof.
  assert (H : mins (minutes_fired nows (with_screen SM_SCREEN_IDLE true st))
              = mins st).
  { apply counters_ext. intros c.
    rewrite minutes_fired_other; [reflexivity|].
    destruct c; discriminate. }
  split; repeat split; exact H.
Qed.

(** ** Recognising the configured inputs *)

Lemma strncmp_is_0_cons c1 r1 c2 r2 n :
  0 < n ->
  strncmp_is_0 (String c1 r1) (String c2 r2) n
  = if Ascii.eqb c1 c2 then strncmp_is_0 r1 r2 (n - 1) else false.
Proof.
  intros Hn. cbn [strncmp_is_0].
  destruct (Z.leb_spec n 0); [lia|reflexivity].
Qed.

Lemma length_cons_pred ch s :
  Z.of_nat (String.length (String ch s)) - 1 = Z.of_nat (String.length s).
Proof. cbn [String.length]. lia. Qed.

Lemma strncmp_is_0_own_prefix s : forall rest,
  strncmp_is_0 (s +:+ rest) s (Z.of_nat (String.length s)) = true.
Proof.
  induction s as [|ch s IH]; intros rest.
  - destruct rest; reflexivity.
  - change (String ch s +:+ rest) with (String ch (s +:+ rest)).
    rewrite strncmp_is_0_cons by (cbn [String.length]; lia).
    rewrite Ascii.eqb_refl, length_cons_pred. apply IH.
Qed.

Lemma strncmp_is_0_prefix_of s : forall rest other,
  strncmp_is_0 (s +:+ rest) other (Z.of_nat (String.length s)) = true ->
  exists tail, other = s +:+ tail.
Proof.
  induction s as [|ch s IH]; intros rest other H.
  - exists other. reflexivity.
  - change (String ch s +:+ rest) with (String ch (s +:+ rest)) in H.
    destruct other as [|ch' other'].
    + cbn [strncmp_is_0] in H.
      destruct (Z.leb_spec (Z.of_nat (String.length (String ch s))) 0)
        as [Hle|_]; [cbn [String.length] in Hle; lia|discriminate H].
    + rewrite strncmp_is_0_cons in H by (cbn [String.length]; lia).
      destruct (Ascii.eqb_spec ch ch') as [->|]; [|discriminate H].
      rewrite length_cons_pred in H.
      destruct (IH rest other' H) as [tail ->].
      exists tail. reflexivity.
Qed.

(** X19. The input string of the PS5 followed by a carriage return, with
    the length of both, always selects PS5.  The input string of the Switch
    sent the same way selects Switch unless the PS5 string starts with it,
    the PS5 comparison coming first. *)
Theorem denon_inputChanged_exact BLURAY_DISC GAME st :
  let len_of (id : string) := Z.of_nat (String.length id) + 1 in
  (len_of BLURAY_DISC <= 2 ^ 32 ->
   active_input (denon_inputChanged BLURAY_DISC GAME (BLURAY_DISC +:+ CR)
                   (len_of BLURAY_DISC) st) = PS5) /\
  (len_of GAME <= 2 ^ 32 ->
   (forall tail, BLURAY_DISC <> GAME +:+ tail) ->
   active_input (denon_inputChanged BLURAY_DISC GAME (GAME +:+ CR)
                   (len_of GAME) st) = Switch).
Proof.
  intros len_of.
  assert (Hlen : forall id, len_of id <= 2 ^ 32 ->
                 u32 (len_of id - 1) = Z.of_nat (String.length id)).
  { intros id Hid. unfold len_of in *. unfold u32.
    rewrite Z.mod_small by lia. lia. }
  split.
  - intros Hfit. rewrite denon_inputChanged_active, (Hlen _ Hfit).
    rewrite strncmp_is_0_own_prefix. reflexivity.
  - intros Hfit Hprefix. rewrite denon_inputChanged_active, (Hlen _ Hfit).
    destruct (strncmp_is_0 (GAME +:+ CR) BLURAY_DISC
                (Z.of_nat (String.length GAME))) eqn:E.
    + destruct (strncmp_is_0_prefix_of GAME CR BLURAY_DISC E) as [tail Ht].
      exfalso. exact (Hprefix tail Ht).
    + rewrite strncmp_is_0_own_prefix. reflexivity.
Qed.

Lemma denon_inputChanged_exact_witness :
  let st := boot (mkFS None true) in
  active_input (denon_inputChanged "BD" "GAME" ("BD" +:+ CR) 3 st) = PS5 /\
  active_input (denon_inputChanged "BD" "GAME" ("GAME" +:+ CR) 5 st) = Switch.
Proof.
  intros st.
  destruct (denon_inputChanged_exact "BD" "GAME" st) as [Hps5 Hswitch].
  split.
  - apply Hps5. simpl. lia.
  - apply Hswitch; [simpl; lia|]. intros tail. discriminate.
Defined.

(** ** Resetting the data *)

(** X20. [fs_reset_data_file] zeroes the ten counters in memory in every
    case and touches no other global than the data file.  When the flash
    accepts writes and the file is missing or parses, the record written
    holds 0 under each of the ten keys and keeps the other keys of the
    record read. *)
Theorem fs_reset_data_file_zeroes st :
  mins (fs_reset_data_file st) = zero_counters /\
  clock (fs_reset_data_file st) = clock st /\
  sm_screen (fs_reset_data_file st) = sm_screen st /\
  (writable (flash st) = true ->
   forall data, stored_data (flash st) = Some data ->
   exists data',
     data_json (flash (fs_reset_data_file st)) = Some (Parsed data') /\
     (forall c, data' !! key_of c = Some 0) /\
     (forall k, (forall c, k <> key_of c) -> data' !! k = data !! k)).
Proof.
  unfold fs_reset_data_file.
  rewrite fs_save_data_file_mins, fs_save_data_file_clock,
    fs_save_data_file_screen.
  split; [reflexivity|]. split; [reflexivity|]. split; [reflexivity|].
  intros Hw data Hd.
  rewrite (fs_save_data_file_writes (with_mins zero_counters st) data Hw Hd).
  eexists. split; [reflexivity|]. split.
  - intros c. rewrite update_data_key. destruct c; reflexivity.
  - intros k Hk. apply update_data_other. exact Hk.
Qed.

Lemma fs_reset_data_file_zeroes_witness :
  let st :=
    mkGlobals (mkCounters 5 60 60 60 60 1 2 3 4 5) (mkClock 21 30 14 3 2024 4)
              0 SM_SCREEN_IDLE false
              (mkFS (Some (Parsed {[ TIME_PS5_WEEK := 59 ]})) true) [] in
  exists data',
    data_json (flash (fs_reset_data_file st)) = Some (Parsed data') /\
    (forall c, data' !! key_of c = Some 0) /\
    (forall k, (forall c, k <> key_of c) ->
               data' !! k = ({[ TIME_PS5_WEEK := 59 ]} : gmap string Z) !! k).
Proof.
  intros st.
  destruct (fs_reset_data_file_zeroes st) as (_ & _ & _ & Hfile).
  apply Hfile; reflexivity.
Defined.

(** ** Screens that stay *)

(** One call of [tft_handle] with no countdown armed, on a screen that is
    not a statistics screen. *)
Lemma tft_handle_unarmed now s :
  sm_timeToNextScreen s < 0 ->
  sm_screen (globals s) <> SM_SCREEN_STATS_ALL ->
  sm_screen (globals s) <> SM_SCREEN_STATS_PS5 ->
  sm_screen (globals s) <> SM_SCREEN_STATS_SWITCH ->
  let s' := tft_handle now s in
  sm_timeToNextScreen s' = sm_timeToNextScreen s /\
  sm_screen (globals s') = sm_screen (globals s) /\
  sm_screen_forceRefresh (globals s') = false /\
  mins (globals s') = mins (globals s) /\
  flash (globals s') = flash (globals s).
Proof.
  intros Htimer Hall Hps5 Hswitch.
  destruct s as [g tick tml next timer irq].
  destruct g as [m c t scr force fl sent]. cbn in Htimer, Hall, Hps5, Hswitch.
  assert (Edraw : (scr =? SM_SCREEN_STATS_ALL) || (scr =? SM_SCREEN_STATS_PS5)
                  || (scr =? SM_SCREEN_STATS_SWITCH) = false).
  { apply orb_false_iff. split; [apply orb_false_iff; split|];
      apply Z.eqb_neq; assumption. }
  assert (Elt : (0 <? timer) = false) by (apply Z.ltb_ge; lia).
  assert (Eeq : (timer =? 0) = false) by (apply Z.eqb_neq; lia).
  unfold tft_handle, tft_handle_nextScreen, draw_screen, with_next,
    with_globals, with_screen. simpl.
  destruct force; simpl.
  - rewrite !orb_true_r. simpl. rewrite Edraw. simpl. repeat split.
  - rewrite !orb_false_r. destruct (tick <? now); simpl.
    + rewrite Elt, Eeq. simpl. rewrite !orb_false_r.
      destruct (negb (tml =? t_minute c)); simpl;
        [rewrite Edraw|]; simpl; repeat split.
    + repeat split.
Qed.

(** X22. The display leaves a screen that is not a statistics screen in
    place: with no countdown armed, any number of calls of [tft_handle]
    keeps the info screen, a play screen or the idle screen, the counters and
    the data file. *)
Theorem tft_handle_keeps_screen nows : forall s,
  sm_timeToNextScreen s < 0 ->
  sm_screen (globals s) <> SM_SCREEN_STATS_ALL ->
  sm_screen (globals s) <> SM_SCREEN_STATS_PS5 ->
  sm_screen (globals s) <> SM_SCREEN_STATS_SWITCH ->
  sm_screen (globals (tft_handles nows s)) = sm_screen (globals s) /\
  mins (globals (tft_handles nows s)) = mins (globals s) /\
  flash (globals (tft_handles nows s)) = flash (globals s).
Proof.
  induction nows as [|now rest IH]; intros s Htimer Hall Hps5 Hswitch;
    [repeat split|].
  change (tft_handles (now :: rest) s)
    with (tft_handles rest (tft_handle now s)).
  destruct (tft_handle_unarmed now s Htimer Hall Hps5 Hswitch)
    as (Ht & Hscr & _ & Hm & Hf).
  destruct (IH (tft_handle now s)) as (Hscr' & Hm' & Hf');
    [rewrite Ht; exact Htimer | rewrite Hscr; assumption ..|].
  repeat split; congruence.
Qed.

Lemma tft_handle_keeps_screen_witness :
  let s :=
    mkSketch (with_screen SM_SCREEN_INFO true (boot (mkFS None true)))
             0 0 SM_SCREEN_IDLE (-1) false in
  sm_screen (globals (tft_handles [1001; 2002; 600000] s)) = SM_SCREEN_INFO.
Proof.
  intros s.
  destruct (tft_handle_keeps_screen [1001; 2002; 600000] s) as [Hscreen _];
    try discriminate.
  - simpl. lia.
  - exact Hscreen.
Defined.

(** X23. A change of the minute while a statistics screen counts down
    redraws it, which sets the countdown back to 5 seconds and records the
    minute: the screen then stays for five more seconds. *)
Theorem tft_handle_minute_change_rearms now s :
  sm_screen_forceRefresh (globals s) = false ->
  sm_screen (globals s) = SM_SCREEN_STATS_ALL \/
  sm_screen (globals s) = SM_SCREEN_STATS_PS5 \/
  sm_screen (globals s) = SM_SCREEN_STATS_SWITCH ->
  0 < sm_timeToNextScreen s ->
  t_minute_last s <> t_minute (clock (globals s)) ->
  everySecond_tick s < now ->
  let s' := tft_handle now s in
  sm_timeToNextScreen s' = 5 /\
  sm_nextScreen s' = SM_SCREEN_IDLE /\
  t_minute_last s' = t_minute (clock (globals s)) /\
  globals s' = globals s.
Proof.
  intros Hforce Hscreen Htimer Hminute Hdue.
  destruct s as [g tick tml next timer irq].
  destruct g as [m c t scr force fl sent].
  cbn in Hforce, Hscreen, Htimer, Hminute, Hdue. subst force.
  assert (Elt : (0 <? timer) = true) by (apply Z.ltb_lt; lia).
  assert (Edue : (tick <? now) = true) by (apply Z.ltb_lt; lia).
  assert (Emin : (tml =? t_minute c) = false) by (apply Z.eqb_neq; exact Hminute).
  unfold tft_handle, tft_handle_nextScreen, draw_screen, with_next,
    with_globals, with_screen. simpl.
  rewrite Edue. simpl. rewrite Elt. simpl. rewrite Emin. simpl.
  destruct Hscreen as [H|[H|H]]; subst scr; simpl; repeat split.
Qed.

Lemma tft_handle_minute_change_rearms_witness :
  let s :=
    mkSketch
      (mkGlobals (mkCounters 5 60 60 60 60 1 2 3 4 5)
                 (mkClock 21 31 14 3 2024 4)
                 0 SM_SCREEN_STATS_PS5 false
                 (mkFS (Some (Parsed ∅)) true) [])
      7000 30 SM_SCREEN_IDLE 1 false in
  sm_timeToNextScreen (tft_handle 8001 s) = 5.
Proof.
  intros s.
  assert (Hscreen : sm_screen (globals s) = SM_SCREEN_STATS_ALL \/
                    sm_screen (globals s) = SM_SCREEN_STATS_PS5 \/
                    sm_screen (globals s) = SM_SCREEN_STATS_SWITCH)
    by (right; left; reflexivity).
  assert (Htimer : 0 < sm_timeToNextScreen s) by (simpl; lia).
  assert (Hminute : t_minute_last s <> t_minute (clock (globals s)))
    by (simpl; discriminate).
  assert (Hdue : everySecond_tick s < 8001) by (simpl; lia).
  exact (proj1 (tft_handle_minute_change_rearms 8001 s eq_refl Hscreen
                  Htimer Hminute Hdue)).
Defined.
